(** * Catalysis Hub MCP server: the JSON-RPC router and the GraphQL forwarder

    A shallow embedding of [src/index.ts] (the Worker's [fetch] handler and
    [executeGraphQLQuery]) and of [MyMCP.executeGraphQLQuery] of the agent
    variant, with the properties of the specification stated over it.

    JavaScript values are a tagged union; objects keep their properties in
    enumeration order, because [JSON.stringify] writes them in that order.
    Exceptions are explicit: every operation that can throw returns an
    [outcome].  The one effect of the program, the outbound HTTP call, is
    threaded through a small monad that reads the network's answer and
    records every request sent. *)

From Stdlib Require Import ZArith String Ascii List Bool Lia DecimalString.
Import ListNotations.
Local Open Scope string_scope.
Local Open Scope Z_scope.
Set Warnings "-register-all".

(* ================================================================= *)
(** ** JavaScript values *)

Module JS.

(** The values [JSON.parse] can produce, plus [undefined] (a missing
    property, an omitted argument).  Numbers are the integral ones:
    [VNum n] is the number that [JSON.parse] reads from the integer literal
    [n], that is the double nearest to [n].  Strings are sequences of bytes
    (UTF-8); an object lists its properties in the order in which
    JavaScript enumerates them, each key once. *)
Inductive value : Type :=
| VUndefined
| VNull
| VBool (b : bool)
| VNum (n : Z)
| VStr (s : string)
| VArr (elems : list value)
| VObj (fields : list (string * value)).

(** What can be thrown: an object that is [instanceof Error] (TypeError,
    SyntaxError, ... all are) with its [message], or any other value,
    kept as its [String(...)] rendering. *)
Inductive exn : Type :=
| ErrorInstance (message : string)
| NonError (rendering : string).

Inductive outcome (A : Type) : Type :=
| Returned (a : A)
| Thrown (e : exn).
Arguments Returned {A} a.
Arguments Thrown {A} e.

Definition obind {A B} (o : outcome A) (k : A -> outcome B) : outcome B :=
  match o with
  | Returned a => k a
  | Thrown e => Thrown e
  end.

Notation "x <~ o ;; k" := (obind o (fun x => k))
  (at level 61, o at next level, right associativity).

(** ToBoolean. *)
Definition truthy (v : value) : bool :=
  match v with
  | VUndefined | VNull => false
  | VBool b => b
  | VNum n => negb (n =? 0)
  | VStr s => negb (String.eqb s EmptyString)
  | VArr _ | VObj _ => true
  end.

(** [v === "literal"]. *)
Definition is_string (v : value) (lit : string) : bool :=
  match v with
  | VStr s => String.eqb s lit
  | _ => false
  end.

(** [a || b]. *)
Definition or_else (a b : value) : value := if truthy a then a else b.

(** *** Numbers *)

Definition decimal (n : Z) : string := NilZero.string_of_int (Z.to_int n).

(** The double nearest to the non-negative integer [c], ties to even: every
    integer below 2^53 is a double; above, the 53 leading bits are kept. *)
Definition nearest_double (c : Z) : Z :=
  let bits := Z.log2 c + 1 in
  if bits <=? 53 then c
  else
    let sh := bits - 53 in
    let q := Z.shiftr c sh in
    let r := c - Z.shiftl q sh in
    let half := Z.shiftl 1 (sh - 1) in
    let q' := if (half <? r) || ((r =? half) && Z.odd q) then q + 1 else q in
    Z.shiftl q' sh.

(** A magnitude that rounds to 2^1024 is [Infinity]. *)
Definition Number_isFinite (n : Z) : bool :=
  Z.log2 (nearest_double (Z.abs n)) <? 1024.

(** The decimal with the fewest significant digits that reads back as the
    double [x], and the closest to [x] among those: for k = 1, 2, ...
    digits, the two multiples of 10^(d-k) around [x], [d] being the number
    of digits of [x].  Seventeen digits identify any double. *)
Fixpoint shortest (fuel : nat) (k d x : Z) : Z :=
  match fuel with
  | O => x
  | S fuel' =>
      if d <=? k then x
      else
        let p := 10 ^ (d - k) in
        let lo := (x / p) * p in
        let hi := lo + p in
        let lo_ok := nearest_double lo =? x in
        let hi_ok := nearest_double hi =? x in
        if lo_ok && hi_ok then
          if x - lo <? hi - x then lo
          else if hi - x <? x - lo then hi
          else if Z.even (x / p) then lo else hi
        else if lo_ok then lo
        else if hi_ok then hi
        else shortest fuel' (k + 1) d x
  end.

Fixpoint strip_zeros (rev_digits : list ascii) : list ascii :=
  match rev_digits with
  | c :: rest => if Ascii.eqb c "0" then strip_zeros rest else rev_digits
  | [] => []
  end.

(** The digits without their trailing zeros. *)
Definition significant (digits : string) : string :=
  string_of_list_ascii (rev (strip_zeros (rev (list_ascii_of_string digits)))).

(** Number::toString for the integral numbers.  Below 2^53 the number is
    the integer itself and prints in plain decimal.  Above, the shortest
    decimal of the double is printed: in full up to 21 digits, and in
    exponent notation beyond. *)
Definition Number_toString (n : Z) : string :=
  if Z.abs n <? 9007199254740992 then decimal n
  else
    let sign := if n <? 0 then "-" else EmptyString in
    let x := nearest_double (Z.abs n) in
    if negb (Number_isFinite n) then sign ++ "Infinity"
    else
      let c := shortest 17 1 (Z.of_nat (String.length (decimal x))) x in
      let digits := decimal c in
      let n10 := Z.of_nat (String.length digits) in
      if n10 <=? 21 then sign ++ digits
      else
        match significant digits with
        | String first EmptyString =>
            sign ++ String first ("e+" ++ decimal (n10 - 1))
        | String first rest =>
            sign ++ String first ("." ++ rest ++ "e+" ++ decimal (n10 - 1))
        | EmptyString => sign ++ digits
        end.

(** Own property lookup.  The list holds each key once. *)
Fixpoint own_property (fields : list (string * value)) (k : string) : value :=
  match fields with
  | [] => VUndefined
  | (k', v) :: rest => if String.eqb k' k then v else own_property rest k
  end.

Fixpoint has_own (fields : list (string * value)) (k : string) : bool :=
  match fields with
  | [] => false
  | (k', _) :: rest => String.eqb k' k || has_own rest k
  end.

(** [o.k = v] on an ordinary object. *)
Fixpoint set_property (fields : list (string * value)) (k : string) (v : value)
  : list (string * value) :=
  match fields with
  | [] => [(k, v)]
  | (k', v') :: rest =>
      if String.eqb k' k then (k', v) :: rest
      else (k', v') :: set_property rest k v
  end.

(** The messages of the TypeErrors below are worded as V8 words them; only
    the inner [catch] of [tools/call] copies such a message into a response.

    [v.k] for the property names this program reads ([method], [params],
    [id], [protocolVersion], [name], [arguments], [query], [variables]):
    none of them is defined on a prototype, so primitives and arrays
    answer [undefined]; [undefined] and [null] throw a TypeError. *)
Definition Get (v : value) (k : string) : outcome value :=
  match v with
  | VUndefined =>
      Thrown (ErrorInstance
        ("Cannot read properties of undefined (reading '" ++ k ++ "')"))
  | VNull =>
      Thrown (ErrorInstance
        ("Cannot read properties of null (reading '" ++ k ++ "')"))
  | VObj fields => Returned (own_property fields k)
  | _ => Returned VUndefined
  end.

(** [v?.k]. *)
Definition OptGet (v : value) (k : string) : outcome value :=
  match v with
  | VUndefined | VNull => Returned VUndefined
  | _ => Get v k
  end.

(** ToString, as a template literal applies it.  An object answers
    [[object Object]] through Object.prototype.toString, unless it has an
    own [toString] property: a parsed value is never callable, and the
    conversion then throws. *)
Fixpoint ToString (v : value) : outcome string :=
  match v with
  | VUndefined => Returned "undefined"
  | VNull => Returned "null"
  | VBool b => Returned (if b then "true" else "false")
  | VNum n => Returned (Number_toString n)
  | VStr s => Returned s
  | VArr elems =>
      (fix join (l : list value) : outcome string :=
         match l with
         | [] => Returned EmptyString
         | x :: rest =>
             sx <~ match x with
                   | VUndefined | VNull => Returned EmptyString
                   | _ => ToString x
                   end ;;
             match rest with
             | [] => Returned sx
             | _ => sr <~ join rest ;; Returned (sx ++ "," ++ sr)
             end
         end) elems
  | VObj fields =>
      if has_own fields "toString"
      then Thrown (ErrorInstance "Cannot convert object to primitive value")
      else Returned "[object Object]"
  end.

(** *** JSON.stringify *)

Definition dquote : string := String "034"%char EmptyString.
Definition backslash : string := String "092"%char EmptyString.

Definition hex_digit (n : N) : ascii :=
  if (n <? 10)%N then ascii_of_N (48 + n) else ascii_of_N (87 + n).

(** One code unit of a quoted JSON string. *)
Definition escape_char (c : ascii) : string :=
  let n := N_of_ascii c in
  if (n =? 34)%N then backslash ++ dquote
  else if (n =? 92)%N then backslash ++ backslash
  else if (n =? 8)%N then backslash ++ "b"
  else if (n =? 9)%N then backslash ++ "t"
  else if (n =? 10)%N then backslash ++ "n"
  else if (n =? 12)%N then backslash ++ "f"
  else if (n =? 13)%N then backslash ++ "r"
  else if (n <? 32)%N then
    backslash ++ "u00" ++
    String (hex_digit (n / 16)) (String (hex_digit (n mod 16)) EmptyString)
  else String c EmptyString.

Fixpoint escape (s : string) : string :=
  match s with
  | EmptyString => EmptyString
  | String c rest => escape_char c ++ escape rest
  end.

Definition QuoteJSONString (s : string) : string :=
  dquote ++ escape s ++ dquote.

(** [JSON.stringify v]: [None] is the result [undefined].  A property
    whose value serializes to [undefined] is left out; an array element
    that does is written [null], and so is a number that is not finite. *)
Fixpoint JSON_stringify (v : value) : option string :=
  match v with
  | VUndefined => None
  | VNull => Some "null"
  | VBool b => Some (if b then "true" else "false")
  | VNum n => Some (if Number_isFinite n then Number_toString n else "null")
  | VStr s => Some (QuoteJSONString s)
  | VArr elems =>
      Some ("[" ++
            String.concat ","
              (map (fun x => match JSON_stringify x with
                             | Some s => s
                             | None => "null"
                             end) elems)
            ++ "]")
  | VObj fields =>
      Some ("{" ++
            String.concat ","
              ((fix members (fs : list (string * value)) : list string :=
                  match fs with
                  | [] => []
                  | (k, x) :: rest =>
                      match JSON_stringify x with
                      | Some s => (QuoteJSONString k ++ ":" ++ s) :: members rest
                      | None => members rest
                      end
                  end) fields)
            ++ "}")
  end.

(** The values a JSON text denotes: no [undefined] anywhere. *)
Fixpoint is_json (v : value) : bool :=
  match v with
  | VUndefined => false
  | VArr elems => forallb is_json elems
  | VObj fields =>
      (fix all (fs : list (string * value)) : bool :=
         match fs with
         | [] => true
         | (_, x) :: rest => is_json x && all rest
         end) fields
  | _ => true
  end.

(** Substring test, for statements about message texts. *)
Fixpoint contains (needle hay : string) : bool :=
  prefix needle hay ||
  match hay with
  | EmptyString => false
  | String _ rest => contains needle rest
  end.

(** The same text with every apostrophe read as a double quote, to write
    expected JSON texts legibly. *)
Fixpoint json_text (s : string) : string :=
  match s with
  | EmptyString => EmptyString
  | String c rest =>
      String (if (N_of_ascii c =? 39)%N then "034"%char else c) (json_text rest)
  end.

End JS.
Import JS.

(* ================================================================= *)
(** ** The platform: HTTP messages and the effect monad *)

(** The [init] argument of the global [fetch]. *)
Record RequestInit := {
  init_method : string;
  init_headers : list (string * string);
  init_body : option string
}.

(** One call of the global [fetch]. *)
Record Outbound := {
  out_url : string;
  out_init : RequestInit
}.

(** What the program reads of the upstream's answer: [response.status],
    [response.ok] and the result of [await response.json()]. *)
Record UpstreamResponse := {
  up_status : Z;
  up_json : outcome value
}.

(** [response.ok]: the status is in the range 200-299. *)
Definition up_ok (r : UpstreamResponse) : bool :=
  (200 <=? up_status r) && (up_status r <=? 299).

(** The world outside: how the global [fetch] settles for a request. *)
Definition Network := Outbound -> outcome UpstreamResponse.

(** A computation reads the network, records the requests it sent, and
    returns or throws. *)
Definition M (A : Type) : Type := Network -> list Outbound * outcome A.

Definition ret {A} (a : A) : M A := fun _ => ([], Returned a).

Definition throw {A} (e : exn) : M A := fun _ => ([], Thrown e).

Definition bind {A B} (m : M A) (k : A -> M B) : M B :=
  fun net =>
    match m net with
    | (sent, Returned a) =>
        let (sent', r) := k a net in ((sent ++ sent')%list, r)
    | (sent, Thrown e) => (sent, Thrown e)
    end.

Definition lift {A} (o : outcome A) : M A := fun _ => ([], o).

(** [try { body } catch (error) { handler }]. *)
Definition try_catch {A} (body : M A) (handler : exn -> M A) : M A :=
  fun net =>
    match body net with
    | (sent, Returned a) => (sent, Returned a)
    | (sent, Thrown e) =>
        let (sent', r) := handler e net in ((sent ++ sent')%list, r)
    end.

(** [await fetch(url, init)]. *)
Definition global_fetch (url : string) (init : RequestInit) : M UpstreamResponse :=
  fun net =>
    let out := {| out_url := url; out_init := init |} in
    ([out], net out).

Notation "x <- m ;; k" := (bind m (fun x => k))
  (at level 61, m at next level, right associativity).

(** The inbound [Request]: its HTTP method and what [await request.json()]
    gives, which throws when the body is not a JSON text. *)
Record Request := {
  req_method : string;
  req_json : outcome value
}.

(** The [Response] the handler builds. *)
Record Response := {
  status : Z;
  headers : list (string * string);
  body : option string
}.

(* ================================================================= *)
(** ** The GraphQL forwarder *)

Definition GRAPHQL_ROOT : string := "http://api.catalysis-hub.org/graphql".

Definition forward_headers : list (string * string) :=
  [("Content-Type", "application/json");
   ("User-Agent", "MCPCatalysisHubServer/0.1.0")].

(** The object [data] of [executeGraphQLQuery]: [{ query }], then
    [data.variables = variables] when [variables] is truthy. *)
Definition request_data (query variables : value) : value :=
  let data := [("query", query)] in
  VObj (if truthy variables
        then set_property data "variables" variables
        else data).

(** The value returned from the [catch] block. *)
Definition error_result (error : exn) : value :=
  match error with
  | ErrorInstance message =>
      VObj [("errors",
             VArr [VObj [("message",
                          VStr ("HTTP Request Error connecting to Catalysis Hub: "
                                ++ message))]])]
  | NonError rendering =>
      VObj [("errors",
             VArr [VObj [("message",
                          VStr ("An unexpected error occurred: " ++ rendering))]])]
  end.

(** index.ts, [executeGraphQLQuery]. *)
Definition executeGraphQLQuery (query variables : value) : M value :=
  try_catch
    (let headers := forward_headers in
     let data := request_data query variables in
     response <- global_fetch GRAPHQL_ROOT
                   {| init_method := "POST";
                      init_headers := headers;
                      init_body := JSON_stringify data |} ;;
     if negb (up_ok response)
     then throw (ErrorInstance
                   ("HTTP error! status: " ++ Number_toString (up_status response)))
     else lift (up_json response))
    (fun error => ret (error_result error)).

Module MyMCP.

(** The agent variant keeps the endpoint in a field, [this.GRAPHQL_ROOT]. *)
Definition GRAPHQL_ROOT : string := "http://api.catalysis-hub.org/graphql".

(** [MyMCP.executeGraphQLQuery]. *)
Definition executeGraphQLQuery (query variables : value) : M value :=
  try_catch
    (let headers :=
       [("Content-Type", "application/json");
        ("User-Agent", "MCPCatalysisHubServer/0.1.0")] in
     let data := request_data query variables in
     response <- global_fetch GRAPHQL_ROOT
                   {| init_method := "POST";
                      init_headers := headers;
                      init_body := JSON_stringify data |} ;;
     if negb (up_ok response)
     then throw (ErrorInstance
                   ("HTTP error! status: " ++ Number_toString (up_status response)))
     else lift (up_json response))
    (fun error => ret (error_result error)).

End MyMCP.

(* ================================================================= *)
(** ** The RPC router: the Worker's [fetch] handler *)

Definition corsHeaders : list (string * string) :=
  [("Access-Control-Allow-Origin", "*");
   ("Access-Control-Allow-Methods", "GET, POST, OPTIONS");
   ("Access-Control-Allow-Headers", "Content-Type");
   ("Content-Type", "application/json")].

(** [{ ...corsHeaders, 'Content-Type': 'text/plain' }]. *)
Definition plainHeaders : list (string * string) :=
  [("Access-Control-Allow-Origin", "*");
   ("Access-Control-Allow-Methods", "GET, POST, OPTIONS");
   ("Access-Control-Allow-Headers", "Content-Type");
   ("Content-Type", "text/plain")].

(** [new Response(JSON.stringify(envelope), { status, headers: corsHeaders })];
    the status is 200 where the source gives none. *)
Definition json_response (st : Z) (envelope : value) : Response :=
  {| status := st; headers := corsHeaders; body := JSON_stringify envelope |}.

(** [new Response(null, { status: 204, headers: corsHeaders })]. *)
Definition no_content : Response :=
  {| status := 204; headers := corsHeaders; body := None |}.

(** A string result of [JSON.stringify] as a property value. *)
Definition string_or_undefined (o : option string) : value :=
  match o with
  | Some s => VStr s
  | None => VUndefined
  end.

(** [args.query?.slice(0, 100)]: strings and arrays have [slice]; on any
    other value that is not [undefined] or [null] the callee is not a
    function.  The result is only printed on the console. *)
Definition query_slice (query : value) : outcome value :=
  match query with
  | VUndefined | VNull => Returned VUndefined
  | VStr s => Returned (VStr (substring 0 100 s))
  | VArr elems => Returned (VArr (firstn 100 elems))
  | _ => Thrown (ErrorInstance "args.query?.slice is not a function")
  end.

(** [toolError instanceof Error ? toolError.message : String(toolError)]. *)
Definition error_text (e : exn) : string :=
  match e with
  | ErrorInstance message => message
  | NonError rendering => rendering
  end.

(** The catalogue answered to [tools/list]. *)
Definition tools : value :=
  VArr [VObj
    [("name", VStr "catalysishub_graphql");
     ("description", VStr "Execute GraphQL queries against the Catalysis Hub API");
     ("inputSchema", VObj
        [("type", VStr "object");
         ("properties", VObj
            [("query", VObj
                [("type", VStr "string");
                 ("description", VStr "The GraphQL query to execute against the Catalysis Hub API. Use introspection queries to discover the schema. If you get a HTTP 400 error, it means the query is invalid, and you should run introspection queries in order to correct your queries.")]);
             ("variables", VObj
                [("type", VStr "object");
                 ("description", VStr "Optional dictionary of variables for the GraphQL query")])]);
         ("required", VArr [VStr "query"])])]].

(** The success envelope of [tools/call]. *)
Definition call_envelope (id result : value) : value :=
  VObj [("jsonrpc", VStr "2.0");
        ("id", id);
        ("result", VObj
           [("content", VArr
              [VObj [("type", VStr "text");
                     ("text", string_or_undefined (JSON_stringify result))]])])].

(** An error envelope, [{ jsonrpc, id, error: { code, message } }]. *)
Definition error_envelope (id : value) (code : Z) (message : string) : value :=
  VObj [("jsonrpc", VStr "2.0");
        ("id", id);
        ("error", VObj [("code", VNum code); ("message", VStr message)])].

(** The envelope of the outermost [catch], with [error] before [id]. *)
Definition internal_error_envelope : value :=
  VObj [("jsonrpc", VStr "2.0");
        ("error", VObj [("code", VNum (-32603));
                        ("message", VStr "Internal server error")]);
        ("id", VNull)].

(** The [initialize] branch. *)
Definition initialize (requestBody : value) : M Response :=
  params <- lift (Get requestBody "params") ;;
  requested <- lift (OptGet params "protocolVersion") ;;
  let clientProtocolVersion := or_else requested (VStr "2024-11-05") in
  id <- lift (Get requestBody "id") ;;
  ret (json_response 200
         (VObj [("jsonrpc", VStr "2.0");
                ("id", id);
                ("result", VObj
                   [("protocolVersion", clientProtocolVersion);
                    ("capabilities", VObj [("tools", VObj [])]);
                    ("serverInfo", VObj [("name", VStr "CatalysisHub");
                                         ("version", VStr "0.1.0")])])])).

(** [const { name, arguments: args } = requestBody.params] needs a value
    that is neither [undefined] nor [null]. *)
Definition destructurable (params : value) : outcome unit :=
  match params with
  | VUndefined =>
      Thrown (ErrorInstance
        "Cannot destructure property 'name' of 'requestBody.params' as it is undefined.")
  | VNull =>
      Thrown (ErrorInstance
        "Cannot destructure property 'name' of 'requestBody.params' as it is null.")
  | _ => Returned tt
  end.

(** The [tools/call] branch.  The destructuring of [requestBody.params]
    throws on [undefined] and [null]; the console line inside the inner
    [try] is kept for the exceptions its template literal can raise. *)
Definition tools_call (requestBody : value) : M Response :=
  params <- lift (Get requestBody "params") ;;
  _ <- lift (destructurable params) ;;
  name <- lift (Get params "name") ;;
  args <- lift (Get params "arguments") ;;
  if is_string name "catalysishub_graphql" then
    try_catch
      (query <- lift (Get args "query") ;;
       preview <- lift (query_slice query) ;;
       _ <- lift (ToString preview) ;;
       variables <- lift (Get args "variables") ;;
       result <- executeGraphQLQuery query variables ;;
       id <- lift (Get requestBody "id") ;;
       ret (json_response 200 (call_envelope id result)))
      (fun toolError =>
         id <- lift (Get requestBody "id") ;;
         ret (json_response 500
                (error_envelope id (-32603)
                   ("Tool execution failed: " ++ error_text toolError))))
  else
    id <- lift (Get requestBody "id") ;;
    nameText <- lift (ToString name) ;;
    ret (json_response 404
           (error_envelope id (-32601) ("Tool not found: " ++ nameText))).

(** The dispatch on the parsed envelope: the part of the handler after
    [await request.json()].  The console line of the unknown-notification
    branch is kept for its template literal, [${requestBody.method}], which
    throws for a method that cannot be converted to a string; the other
    console lines of the handler print constants, strings, numbers or
    [JSON.stringify(requestBody)], and cannot throw. *)
Definition route (requestBody : value) : M Response :=
  method <- lift (Get requestBody "method") ;;
  if is_string method "initialize" then initialize requestBody
  else
    id <- lift (Get requestBody "id") ;;
    if truthy method && negb (truthy id) then
      if is_string method "notifications/initialized" then ret no_content
      else
        _ <- lift (ToString method) ;;
        ret no_content
    else if is_string method "tools/list" then
      ret (json_response 200
             (VObj [("jsonrpc", VStr "2.0");
                    ("id", id);
                    ("result", VObj [("tools", tools)])]))
    else if is_string method "tools/call" then tools_call requestBody
    else
      methodText <- lift (ToString method) ;;
      ret (json_response 404
             (error_envelope id (-32601) ("Method not found: " ++ methodText))).

(** The handler.  [getServer()] only builds the process-wide [McpServer]
    on first use; nothing of it reaches the response, and the console is
    write-only, so neither is part of the state. *)
Definition fetch (request : Request) : M Response :=
  try_catch
    (if String.eqb (req_method request) "OPTIONS" then ret no_content
     else if negb (String.eqb (req_method request) "POST") then
       ret {| status := 200; headers := plainHeaders;
              body := Some "Catalysis Hub MCP Server - Ready" |}
     else
       requestBody <- lift (req_json request) ;;
       route requestBody)
    (fun error => ret (json_response 500 internal_error_envelope)).

(* ================================================================= *)
(** ** Vocabulary of the statements *)

(** An inbound POST whose body parses to [requestBody]. *)
Definition post (requestBody : value) : Request :=
  {| req_method := "POST"; req_json := Returned requestBody |}.

(** The one request the forwarder sends for given arguments. *)
Definition forward_request (query variables : value) : Outbound :=
  {| out_url := "http://api.catalysis-hub.org/graphql";
     out_init :=
       {| init_method := "POST";
          init_headers := [("Content-Type", "application/json");
                           ("User-Agent", "MCPCatalysisHubServer/0.1.0")];
          init_body := JSON_stringify (request_data query variables) |} |}.

(** The value the forwarder hands back for each way the call can settle. *)
Definition settle (o : outcome UpstreamResponse) : value :=
  match o with
  | Thrown e => error_result e
  | Returned response =>
      if up_ok response then
        match up_json response with
        | Returned parsed => parsed
        | Thrown e => error_result e
        end
      else error_result
             (ErrorInstance
                ("HTTP error! status: " ++ Number_toString (up_status response)))
  end.

(** [{ errors: [{ message }] }]. *)
Definition errors_value (message : string) : value :=
  VObj [("errors", VArr [VObj [("message", VStr message)]])].

(** The optional [variables] argument of a typed caller: omitted, or a map. *)
Definition variables_arg (variables : option (list (string * value))) : value :=
  match variables with
  | None => VUndefined
  | Some map => VObj map
  end.

(** A network on which every call is refused. *)
Definition unreachable_network : Network :=
  fun _ => Thrown (ErrorInstance "fetch failed").

(** A network whose upstream answers every call with [st] and body [parsed]. *)
Definition answering (st : Z) (parsed : value) : Network :=
  fun _ => Returned {| up_status := st; up_json := Returned parsed |}.

(** What the [tools/call] branch evaluates inside its [try] before the
    forwarder is called: the two arguments, unless reading them or the
    template literal of the console line throws. *)
Definition call_arguments (args : value) : outcome (value * value) :=
  query <~ Get args "query" ;;
  preview <~ query_slice query ;;
  _ <~ ToString preview ;;
  variables <~ Get args "variables" ;;
  Returned (query, variables).

(** The request and the upstream body of the specification's scenario. *)
Definition scenario_request : value :=
  VObj [("jsonrpc", VStr "2.0");
        ("id", VNum 1);
        ("method", VStr "tools/call");
        ("params", VObj
           [("name", VStr "catalysishub_graphql");
            ("arguments", VObj
               [("query", VStr "query{__schema{queryType{name}}}")])])].

Definition scenario_params : value :=
  VObj [("name", VStr "catalysishub_graphql");
        ("arguments", VObj
           [("query", VStr "query{__schema{queryType{name}}}")])].

Definition scenario_upstream_body : value :=
  VObj [("data", VObj
     [("__schema", VObj
        [("queryType", VObj [("name", VStr "Query")])])])].

(** An [initialize] request that supplies the empty string as its
    protocol version. *)
Definition initialize_with_empty_version : value :=
  VObj [("jsonrpc", VStr "2.0");
        ("id", VNum 1);
        ("method", VStr "initialize");
        ("params", VObj [("protocolVersion", VStr EmptyString)])].

(** An [initialize] request that asks for a version of its own. *)
Definition initialize_with_version : value :=
  VObj [("jsonrpc", VStr "2.0");
        ("id", VNum 1);
        ("method", VStr "initialize");
        ("params", VObj [("protocolVersion", VStr "2025-03-26")])].

(** An envelope without an id whose method is the empty string. *)
Definition empty_method_without_id : value :=
  VObj [("jsonrpc", VStr "2.0"); ("method", VStr EmptyString)].

(** An envelope with an unknown method, with and without an id. *)
Definition unknown_method_request : value :=
  VObj [("jsonrpc", VStr "2.0"); ("id", VNum 7); ("method", VStr "resources/list")].

(** A call of a tool that does not exist, sent with the id 0. *)
Definition unknown_tool_call_id_zero : value :=
  VObj [("jsonrpc", VStr "2.0");
        ("id", VNum 0);
        ("method", VStr "tools/call");
        ("params", VObj [("name", VStr "no_such_tool");
                         ("arguments", VObj [])])].

(** The same call sent with the id 1. *)
Definition unknown_tool_call_id_one : value :=
  VObj [("jsonrpc", VStr "2.0");
        ("id", VNum 1);
        ("method", VStr "tools/call");
        ("params", VObj [("name", VStr "no_such_tool");
                         ("arguments", VObj [])])].

(** A POST whose body is not a JSON text. *)
Definition unparseable_post : Request :=
  {| req_method := "POST";
     req_json := Thrown (ErrorInstance "Unexpected end of JSON input") |}.

(** An envelope with the id 0 whose method is the empty string. *)
Definition empty_method_id_zero : value :=
  VObj [("jsonrpc", VStr "2.0"); ("id", VNum 0); ("method", VStr EmptyString)].

(** The scenario's call sent with the id 0. *)
Definition scenario_request_id_zero : value :=
  VObj [("jsonrpc", VStr "2.0");
        ("id", VNum 0);
        ("method", VStr "tools/call");
        ("params", scenario_params)].

(** A call of the known tool whose [query] argument is the number 5. *)
Definition numeric_query_call : value :=
  VObj [("jsonrpc", VStr "2.0");
        ("id", VNum 1);
        ("method", VStr "tools/call");
        ("params", VObj [("name", VStr "catalysishub_graphql");
                         ("arguments", VObj [("query", VNum 5)])])].

(* ================================================================= *)
(** ** The tool callbacks registered with the SDK server *)

(** [query.slice(0, 100)], without the optional chaining of the router:
    [undefined] and [null] have no properties. *)
Definition query_slice_strict (query : value) : outcome value :=
  match query with
  | VUndefined =>
      Thrown (ErrorInstance
        "Cannot read properties of undefined (reading 'slice')")
  | VNull =>
      Thrown (ErrorInstance "Cannot read properties of null (reading 'slice')")
  | VStr s => Returned (VStr (substring 0 100 s))
  | VArr elems => Returned (VArr (firstn 100 elems))
  | _ => Thrown (ErrorInstance "query.slice is not a function")
  end.

(** The parameter pattern [{ query, variables }] needs an argument that is
    neither [undefined] nor [null]. *)
Definition destructurable_argument (args : value) : outcome unit :=
  match args with
  | VUndefined =>
      Thrown (ErrorInstance
        "Cannot destructure property 'query' of 'undefined' as it is undefined.")
  | VNull =>
      Thrown (ErrorInstance
        "Cannot destructure property 'query' of 'object null' as it is null.")
  | _ => Returned tt
  end.

(** index.ts, the callback given to [server.tool] in [getServer]. *)
Definition tool_callback (args : value) : M value :=
  _ <- lift (destructurable_argument args) ;;
  query <- lift (Get args "query") ;;
  variables <- lift (Get args "variables") ;;
  preview <- lift (query_slice_strict query) ;;
  _ <- lift (ToString preview) ;;
  result <- executeGraphQLQuery query variables ;;
  ret (VObj [("content", VArr
               [VObj [("type", VStr "text");
                      ("text", string_or_undefined (JSON_stringify result))]])]).

Module MyMCP_init.

(** The callback given to [this.server.tool] in [MyMCP.init]. *)
Definition tool_callback (args : value) : M value :=
  _ <- lift (destructurable_argument args) ;;
  query <- lift (Get args "query") ;;
  variables <- lift (Get args "variables") ;;
  preview <- lift (query_slice_strict query) ;;
  _ <- lift (ToString preview) ;;
  result <- MyMCP.executeGraphQLQuery query variables ;;
  ret (VObj [("content", VArr
               [VObj [("type", VStr "text");
                      ("text", string_or_undefined (JSON_stringify result))]])]).

End MyMCP_init.

(* ================================================================= *)
(** ** Further vocabulary *)

(** [v.k] for a [v] that is neither [undefined] nor [null]. *)
Definition prop (v : value) (k : string) : value :=
  match v with
  | VObj fields => own_property fields k
  | _ => VUndefined
  end.

Definition nullish (v : value) : bool :=
  match v with
  | VUndefined | VNull => true
  | _ => false
  end.

(** The answer to requests that are neither OPTIONS nor POST. *)
Definition ready_banner : Response :=
  {| status := 200;
     headers := [("Access-Control-Allow-Origin", "*");
                 ("Access-Control-Allow-Methods", "GET, POST, OPTIONS");
                 ("Access-Control-Allow-Headers", "Content-Type");
                 ("Content-Type", "text/plain")];
     body := Some "Catalysis Hub MCP Server - Ready" |}.

(** The value of a response header. *)
Fixpoint header (hs : list (string * string)) (name : string) : option string :=
  match hs with
  | [] => None
  | (n, v) :: rest => if String.eqb n name then Some v else header rest name
  end.

(** The names a [tools/list] catalogue advertises. *)
Definition tool_names (catalogue : value) : list value :=
  match catalogue with
  | VArr entries => map (fun entry => prop entry "name") entries
  | _ => []
  end.

(** Two networks on which the forwarder comes to the same result. *)
Definition same_settlement (net1 net2 : Network) : Prop :=
  forall out : Outbound, settle (net1 out) = settle (net2 out).

(** A computation whose outcome depends on the network only through the
    forwarder's result. *)
Definition settlement_only {A} (m : M A) : Prop :=
  forall net1 net2 : Network, same_settlement net1 net2 -> m net1 = m net2.

(** A request reaches the forwarder: a [tools/call] of the known tool with
    a truthy id whose arguments can be read. *)
Definition reaches_forwarder (requestBody query variables : value) : Prop :=
  Get requestBody "method" = Returned (VStr "tools/call") /\
  truthy (prop requestBody "id") = true /\
  Get (prop requestBody "params") "name" =
    Returned (VStr "catalysishub_graphql") /\
  call_arguments (prop (prop requestBody "params") "arguments") =
    Returned (query, variables).

(** A [tools/list] request with the id 2 and parameters nobody asked for. *)
Definition tools_list_request : value :=
  VObj [("jsonrpc", VStr "2.0");
        ("id", VNum 2);
        ("method", VStr "tools/list");
        ("params", VObj [("cursor", VStr "next")])].

(** [notifications/initialized], as a notification and with the id 3. *)
Definition initialized_notification : value :=
  VObj [("jsonrpc", VStr "2.0");
        ("method", VStr "notifications/initialized");
        ("params", VObj [("anything", VBool true)])].

Definition initialized_with_id : value :=
  VObj [("jsonrpc", VStr "2.0");
        ("id", VNum 3);
        ("method", VStr "notifications/initialized")].

(** A [tools/call] with an id and no [params] member. *)
Definition call_without_params : value :=
  VObj [("jsonrpc", VStr "2.0"); ("id", VNum 4); ("method", VStr "tools/call")].

(** A call of the known tool with no [arguments] member. *)
Definition call_without_arguments : value :=
  VObj [("jsonrpc", VStr "2.0");
        ("id", VNum 5);
        ("method", VStr "tools/call");
        ("params", VObj [("name", VStr "catalysishub_graphql")])].

(** A call of the known tool whose arguments hold neither a query nor
    variables. *)
Definition call_without_query : value :=
  VObj [("jsonrpc", VStr "2.0");
        ("id", VNum 6);
        ("method", VStr "tools/call");
        ("params", VObj [("name", VStr "catalysishub_graphql");
                         ("arguments", VObj [])])].

(** A call whose [params] has no [name] member. *)
Definition call_without_name : value :=
  VObj [("jsonrpc", VStr "2.0");
        ("id", VNum 8);
        ("method", VStr "tools/call");
        ("params", VObj [("arguments", VObj [])])].

(** An envelope with an id and no [method] member. *)
Definition envelope_without_method : value :=
  VObj [("jsonrpc", VStr "2.0"); ("id", VNum 9)].

(** A network whose upstream answers 200 with a body that is not JSON. *)
Definition answering_garbage : Network :=
  fun _ => Returned
    {| up_status := 200;
       up_json := Thrown (ErrorInstance "Unexpected token < in JSON at position 0") |}.

(** An [initialize] sent as a notification, without an id. *)
Definition initialize_without_id : value :=
  VObj [("jsonrpc", VStr "2.0");
        ("method", VStr "initialize");
        ("params", VObj [("protocolVersion", VStr "2025-03-26")])].

(** An envelope with the id 0 whose method is an object that cannot be
    converted to a string. *)
Definition unprintable_method_id_zero : value :=
  VObj [("jsonrpc", VStr "2.0");
        ("id", VNum 0);
        ("method", VObj [("toString", VNum 1)])].

(* ================================================================= *)
(** ** The forwarder *)

Lemma executeGraphQLQuery_run (query variables : value) (net : Network) :
  executeGraphQLQuery query variables net =
  ([forward_request query variables],
   Returned (settle (net (forward_request query variables)))).
Proof.
  unfold executeGraphQLQuery, try_catch, bind, global_fetch, settle.
  cbv beta zeta.
  set (settled := net _).
  assert (E : settled = net (forward_request query variables)) by reflexivity.
  clearbody settled. subst settled.
  destruct (net (forward_request query variables)) as [response | e].
  - destruct (up_ok response); cbv [negb throw lift ret app].
    + destruct (up_json response); reflexivity.
    + reflexivity.
  - reflexivity.
Qed.

Lemma MyMCP_executeGraphQLQuery_same (query variables : value) :
  MyMCP.executeGraphQLQuery query variables = executeGraphQLQuery query variables.
Proof. reflexivity. Qed.

Lemma prefix_append (needle rest : string) :
  prefix needle (needle ++ rest) = true.
Proof.
  induction needle as [| c needle IH]; simpl.
  - destruct rest; reflexivity.
  - destruct (ascii_dec c c) as [_ | N]; [exact IH | contradiction].
Qed.

Lemma contains_prefix (needle rest : string) :
  contains needle (needle ++ rest) = true.
Proof.
  pose proof (prefix_append needle rest) as P.
  destruct (needle ++ rest); unfold contains; fold contains;
    rewrite P; reflexivity.
Qed.

(** C3.  [executeGraphQLQuery] never throws to its caller.  Whatever the
    arguments and however the outbound call settles, it sends its one
    request and returns a value.  When [fetch] rejects, when the status is
    not a success, or when reading the body as JSON fails, that value is
    [{errors:[{message}]}]: the message is the error's own message after
    "HTTP Request Error connecting to Catalysis Hub: " for an Error
    instance (the non-success status is reported as the Error
    "HTTP error! status: <status>"), and the rendering of the thrown value
    after "An unexpected error occurred: " otherwise.  The copy in [MyMCP]
    behaves the same. *)
Theorem executeGraphQLQuery_never_throws :
  forall (query variables : value) (net : Network),
    let out := forward_request query variables in
    (exists v : value,
       executeGraphQLQuery query variables net = ([out], Returned v) /\
       (forall message,
           net out = Thrown (ErrorInstance message) ->
           v = errors_value
                 ("HTTP Request Error connecting to Catalysis Hub: " ++ message)) /\
       (forall rendering,
           net out = Thrown (NonError rendering) ->
           v = errors_value ("An unexpected error occurred: " ++ rendering)) /\
       (forall response,
           net out = Returned response -> up_ok response = false ->
           v = errors_value
                 ("HTTP Request Error connecting to Catalysis Hub: "
                  ++ "HTTP error! status: "
                  ++ Number_toString (up_status response))) /\
       (forall response message,
           net out = Returned response -> up_ok response = true ->
           up_json response = Thrown (ErrorInstance message) ->
           v = errors_value
                 ("HTTP Request Error connecting to Catalysis Hub: " ++ message)) /\
       (forall response rendering,
           net out = Returned response -> up_ok response = true ->
           up_json response = Thrown (NonError rendering) ->
           v = errors_value ("An unexpected error occurred: " ++ rendering))) /\
    MyMCP.executeGraphQLQuery query variables net =
    executeGraphQLQuery query variables net.
Proof.
  intros query variables net out. split; [| reflexivity].
  exists (settle (net out)). split.
  - apply executeGraphQLQuery_run.
  - unfold settle.
    repeat split; intros.
    + rewrite H. reflexivity.
    + rewrite H. reflexivity.
    + rewrite H, H0. reflexivity.
    + rewrite H, H0, H1. reflexivity.
    + rewrite H, H0, H1. reflexivity.
Qed.

(** On a network that refuses every call, the forwarder returns the error
    value with the labelled message. *)
Lemma executeGraphQLQuery_never_throws_witness :
  executeGraphQLQuery (VStr "query{a}") VUndefined unreachable_network =
  ([forward_request (VStr "query{a}") VUndefined],
   Returned (errors_value
     "HTTP Request Error connecting to Catalysis Hub: fetch failed")).
Proof.
  destruct (executeGraphQLQuery_never_throws
              (VStr "query{a}") VUndefined unreachable_network)
    as [[v [Run [OnError _]]] _].
  rewrite Run.
  rewrite (OnError "fetch failed" eq_refl).
  reflexivity.
Defined.

(** C8.  The body of the outbound request is the serialization of an
    object that always has the key [query] with the caller's query string,
    and has the key [variables], with the caller's map, exactly when a map
    was supplied; with no variables the body is [{"query":...}] alone, and
    no [null] is written in their place. *)
Theorem outbound_body_query_and_optional_variables :
  forall (query : string) (variables : option (list (string * value)))
         (net : Network),
    exists (result : outcome value) (text : string),
      executeGraphQLQuery (VStr query) (variables_arg variables) net =
        ([{| out_url := GRAPHQL_ROOT;
             out_init := {| init_method := "POST";
                            init_headers := forward_headers;
                            init_body := Some text |} |}],
         result) /\
      match variables with
      | None =>
          request_data (VStr query) VUndefined = VObj [("query", VStr query)] /\
          JSON_stringify (VObj [("query", VStr query)]) = Some text /\
          text = "{" ++ QuoteJSONString "query" ++ ":" ++ QuoteJSONString query
                 ++ "}"
      | Some map =>
          request_data (VStr query) (VObj map) =
            VObj [("query", VStr query); ("variables", VObj map)] /\
          JSON_stringify (VObj [("query", VStr query); ("variables", VObj map)])
            = Some text /\
          exists m, JSON_stringify (VObj map) = Some m /\
            text = "{" ++ String.concat ","
                            [QuoteJSONString "query" ++ ":" ++ QuoteJSONString query;
                             QuoteJSONString "variables" ++ ":" ++ m]
                   ++ "}"
      end.
Proof.
  intros query variables net.
  rewrite executeGraphQLQuery_run.
  destruct variables as [map |].
  - eexists. eexists. split; [reflexivity |].
    split; [reflexivity |]. split; [reflexivity |].
    eexists. split; reflexivity.
  - eexists. eexists. split; [reflexivity |].
    split; [reflexivity |]. split; reflexivity.
Qed.

(* ================================================================= *)
(** ** Running the router *)

Lemma bind_lift {A B} (o : outcome A) (k : A -> M B) (net : Network) :
  (x <- lift o ;; k x) net =
  match o with
  | Returned a => k a net
  | Thrown e => ([], Thrown e)
  end.
Proof.
  unfold bind, lift. destruct o as [a | e]; [| reflexivity].
  destruct (k a net); reflexivity.
Qed.

Lemma fetch_post_returned (requestBody : value) (net : Network) sent response :
  route requestBody net = (sent, Returned response) ->
  fetch (post requestBody) net = (sent, Returned response).
Proof.
  intros Run. unfold fetch, try_catch, post. cbn [req_method req_json].
  change (String.eqb "POST" "OPTIONS") with false.
  change (String.eqb "POST" "POST") with true. cbv [negb].
  rewrite bind_lift, Run. reflexivity.
Qed.

Lemma fetch_post_thrown (requestBody : value) (net : Network) sent e :
  route requestBody net = (sent, Thrown e) ->
  fetch (post requestBody) net =
  (sent, Returned (json_response 500 internal_error_envelope)).
Proof.
  intros Run. unfold fetch, try_catch, post. cbn [req_method req_json].
  change (String.eqb "POST" "OPTIONS") with false.
  change (String.eqb "POST" "POST") with true. cbv [negb].
  rewrite bind_lift, Run. unfold ret. rewrite app_nil_r. reflexivity.
Qed.

Lemma route_not_initialize (requestBody method id : value) (net : Network) :
  Get requestBody "method" = Returned method ->
  is_string method "initialize" = false ->
  Get requestBody "id" = Returned id ->
  route requestBody net =
  if truthy method && negb (truthy id) then
    if is_string method "notifications/initialized"
    then ([], Returned no_content)
    else
      match ToString method with
      | Returned _ => ([], Returned no_content)
      | Thrown e => ([], Thrown e)
      end
  else if is_string method "tools/list" then
    ([], Returned (json_response 200
                     (VObj [("jsonrpc", VStr "2.0");
                            ("id", id);
                            ("result", VObj [("tools", tools)])])))
  else if is_string method "tools/call" then tools_call requestBody net
  else
    match ToString method with
    | Returned methodText =>
        ([], Returned (json_response 404
               (error_envelope id (-32601) ("Method not found: " ++ methodText))))
    | Thrown e => ([], Thrown e)
    end.
Proof.
  intros Hm Hi Hid. unfold route.
  rewrite bind_lift, Hm, Hi, bind_lift, Hid.
  destruct (truthy method && negb (truthy id)).
  - destruct (is_string method "notifications/initialized"); [reflexivity |].
    rewrite bind_lift. destruct (ToString method); reflexivity.
  - destruct (is_string method "tools/list"); [reflexivity |].
    destruct (is_string method "tools/call"); [reflexivity |].
    rewrite bind_lift. destruct (ToString method); reflexivity.
Qed.

(** The same for a method that is a string, which the console line of the
    notification branch prints without fail. *)
Lemma route_string_method (requestBody id : value) (method : string)
      (net : Network) :
  Get requestBody "method" = Returned (VStr method) ->
  is_string (VStr method) "initialize" = false ->
  Get requestBody "id" = Returned id ->
  route requestBody net =
  if truthy (VStr method) && negb (truthy id) then ([], Returned no_content)
  else if is_string (VStr method) "tools/list" then
    ([], Returned (json_response 200
                     (VObj [("jsonrpc", VStr "2.0");
                            ("id", id);
                            ("result", VObj [("tools", tools)])])))
  else if is_string (VStr method) "tools/call" then tools_call requestBody net
  else
    ([], Returned (json_response 404
           (error_envelope id (-32601) ("Method not found: " ++ method)))).
Proof.
  intros Hm Hi Hid.
  rewrite (route_not_initialize requestBody _ id net Hm Hi Hid).
  cbn [ToString].
  destruct (truthy (VStr method) && negb (truthy id)); [| reflexivity].
  destruct (is_string (VStr method) "notifications/initialized"); reflexivity.
Qed.

Lemma tools_call_known (requestBody params args id : value) (net : Network) :
  Get requestBody "params" = Returned params ->
  Get params "name" = Returned (VStr "catalysishub_graphql") ->
  Get params "arguments" = Returned args ->
  Get requestBody "id" = Returned id ->
  tools_call requestBody net =
  match call_arguments args with
  | Returned (query, variables) =>
      ([forward_request query variables],
       Returned (json_response 200
                   (call_envelope id
                      (settle (net (forward_request query variables))))))
  | Thrown e =>
      ([], Returned (json_response 500
                       (error_envelope id (-32603)
                          ("Tool execution failed: " ++ error_text e))))
  end.
Proof.
  intros Hp Hn Ha Hid. unfold tools_call.
  rewrite bind_lift, Hp.
  assert (D : destructurable params = Returned tt).
  { destruct params; try reflexivity; discriminate Hn. }
  rewrite bind_lift, D, bind_lift, Hn, bind_lift, Ha.
  change (is_string (VStr "catalysishub_graphql") "catalysishub_graphql") with true.
  cbv iota. unfold try_catch, call_arguments, obind.
  rewrite bind_lift. destruct (Get args "query") as [query | e].
  2: { rewrite bind_lift, Hid. reflexivity. }
  rewrite bind_lift. destruct (query_slice query) as [preview | e].
  2: { rewrite bind_lift, Hid. reflexivity. }
  rewrite bind_lift. destruct (ToString preview) as [text | e].
  2: { rewrite bind_lift, Hid. reflexivity. }
  rewrite bind_lift. destruct (Get args "variables") as [variables | e].
  2: { rewrite bind_lift, Hid. reflexivity. }
  unfold bind at 1. rewrite executeGraphQLQuery_run.
  rewrite bind_lift, Hid. reflexivity.
Qed.

Lemma stringify_json (v : value) :
  is_json v = true -> exists t, JSON_stringify v = Some t.
Proof.
  destruct v; intros J; try discriminate J; eexists; reflexivity.
Qed.

Lemma Get_string_is_object (v : value) (k s : string) :
  Get v k = Returned (VStr s) -> exists fields, v = VObj fields.
Proof.
  destruct v; intros G; try discriminate G. eexists; reflexivity.
Qed.

(** A [tools/call] of the known tool that reached the upstream: the id was
    truthy, one request was sent, and the response wraps what the forwarder
    made of the network's answer. *)
Lemma tools_call_sent (requestBody params id : value) (net : Network)
      (sent : list Outbound) (result : outcome Response) (out : Outbound) :
  Get requestBody "method" = Returned (VStr "tools/call") ->
  Get requestBody "id" = Returned id ->
  Get requestBody "params" = Returned params ->
  Get params "name" = Returned (VStr "catalysishub_graphql") ->
  fetch (post requestBody) net = (sent, result) ->
  In out sent ->
  truthy id = true /\
  sent = [out] /\
  result = Returned (json_response 200 (call_envelope id (settle (net out)))).
Proof.
  intros Hm Hid Hp Hn Run Sent.
  destruct (Get_string_is_object _ _ _ Hn) as [fields ->].
  pose proof (route_string_method requestBody id _ net Hm eq_refl Hid) as R.
  change (truthy (VStr "tools/call")) with true in R.
  change (is_string (VStr "tools/call") "tools/list") with false in R.
  change (is_string (VStr "tools/call") "tools/call") with true in R.
  cbv iota in R. rewrite andb_true_l in R.
  destruct (truthy id) eqn:Tid; cbv [negb] in R.
  2: { rewrite (fetch_post_returned _ _ _ _ R) in Run.
       injection Run as <- _. destruct Sent. }
  rewrite (tools_call_known requestBody (VObj fields) _ id net Hp Hn eq_refl Hid) in R.
  destruct (call_arguments (own_property fields "arguments"))
    as [[query variables] | e].
  2: { rewrite (fetch_post_returned _ _ _ _ R) in Run.
       injection Run as <- _. destruct Sent. }
  rewrite (fetch_post_returned _ _ _ _ R) in Run.
  injection Run as <- <-.
  destruct Sent as [<- | []].
  repeat split.
Qed.

(* ================================================================= *)
(** ** tools/call *)

(** C1.  A [tools/call] of [catalysishub_graphql] whose outbound POST is
    answered with an ok status and JSON body [B] gets HTTP 200 and the
    JSON-RPC success envelope with the request's id (which is then
    truthy) and the result [{content:[{type:"text", text: t}]}], [t] being
    [JSON.stringify(B)]; that POST is the only request sent.  In the
    scenario of the specification (id 1, the [__schema] query, the upstream
    answering the [queryType] document) the response body is, character for
    character, the envelope given there. *)
Theorem tools_call_relays_upstream_body :
  (forall (requestBody params id : value) (net : Network)
          (sent : list Outbound) (result : outcome Response)
          (out : Outbound) (response : UpstreamResponse) (B : value),
      Get requestBody "method" = Returned (VStr "tools/call") ->
      Get requestBody "id" = Returned id ->
      Get requestBody "params" = Returned params ->
      Get params "name" = Returned (VStr "catalysishub_graphql") ->
      fetch (post requestBody) net = (sent, result) ->
      In out sent ->
      net out = Returned response ->
      up_ok response = true ->
      up_json response = Returned B ->
      is_json B = true ->
      exists t : string,
        JSON_stringify B = Some t /\
        truthy id = true /\
        sent = [out] /\
        result =
          Returned
            {| status := 200;
               headers := corsHeaders;
               body := JSON_stringify
                 (VObj [("jsonrpc", VStr "2.0");
                        ("id", id);
                        ("result", VObj
                           [("content", VArr
                              [VObj [("type", VStr "text");
                                     ("text", VStr t)]])])]) |})
  /\
  fetch (post scenario_request) (answering 200 scenario_upstream_body) =
  ([forward_request (VStr "query{__schema{queryType{name}}}") VUndefined],
   Returned
     {| status := 200;
        headers := corsHeaders;
        body := Some (json_text
          "{'jsonrpc':'2.0','id':1,'result':{'content':[{'type':'text','text':'{\'data\':{\'__schema\':{\'queryType\':{\'name\':\'Query\'}}}}'}]}}") |}).
Proof.
  split; [| vm_compute; reflexivity].
  intros requestBody params id net sent result out response B
         Hm Hid Hp Hn Run Sent Net Ok Json IsJson.
  destruct (stringify_json B IsJson) as [t St].
  exists t. split; [exact St |].
  destruct (tools_call_sent _ _ _ _ _ _ _ Hm Hid Hp Hn Run Sent)
    as [Tid [One ->]].
  split; [exact Tid |]. split; [exact One |].
  rewrite Net. unfold settle. rewrite Ok, Json.
  unfold json_response, call_envelope. rewrite St. reflexivity.
Qed.

(** The scenario satisfies every premise of the general statement. *)
Lemma tools_call_relays_upstream_body_witness :
  exists t : string,
    JSON_stringify scenario_upstream_body = Some t /\
    truthy (VNum 1) = true /\
    [forward_request (VStr "query{__schema{queryType{name}}}") VUndefined] =
      [forward_request (VStr "query{__schema{queryType{name}}}") VUndefined] /\
    snd (fetch (post scenario_request) (answering 200 scenario_upstream_body)) =
      Returned
        {| status := 200;
           headers := corsHeaders;
           body := JSON_stringify
             (VObj [("jsonrpc", VStr "2.0");
                    ("id", VNum 1);
                    ("result", VObj
                       [("content", VArr
                          [VObj [("type", VStr "text");
                                 ("text", VStr t)]])])]) |}.
Proof.
  apply (proj1 tools_call_relays_upstream_body
           scenario_request scenario_params (VNum 1)
           (answering 200 scenario_upstream_body)
           _ _
           (forward_request (VStr "query{__schema{queryType{name}}}") VUndefined)
           {| up_status := 200; up_json := Returned scenario_upstream_body |}
           scenario_upstream_body).
  - reflexivity.
  - reflexivity.
  - reflexivity.
  - reflexivity.
  - vm_compute. reflexivity.
  - left. reflexivity.
  - reflexivity.
  - reflexivity.
  - reflexivity.
  - reflexivity.
Defined.

(** C2.  When the upstream call of a [tools/call] of the known tool fails,
    because [fetch] rejects with an Error or because the upstream answers
    with a status that is not a success, the router still answers HTTP 200
    with a JSON-RPC success envelope (a [result], no [error]): its text is
    the serialization of [{errors:[{message: m}]}], where [m] is the
    synthetic "HTTP Request Error connecting to Catalysis Hub: " followed by
    the Error's message, and so contains "HTTP Request Error".  For a
    non-success status the Error is the program's own
    "HTTP error! status: <status>"; the upstream's status is not the
    response's status and the upstream's body is not read. *)
Theorem upstream_failure_is_reported_as_data :
  forall (requestBody params id : value) (net : Network)
         (sent : list Outbound) (result : outcome Response)
         (out : Outbound) (cause : string),
    Get requestBody "method" = Returned (VStr "tools/call") ->
    Get requestBody "id" = Returned id ->
    Get requestBody "params" = Returned params ->
    Get params "name" = Returned (VStr "catalysishub_graphql") ->
    fetch (post requestBody) net = (sent, result) ->
    In out sent ->
    (net out = Thrown (ErrorInstance cause) \/
     exists response : UpstreamResponse,
       net out = Returned response /\
       up_ok response = false /\
       cause = "HTTP error! status: " ++ Number_toString (up_status response)) ->
    exists m t : string,
      m = "HTTP Request Error connecting to Catalysis Hub: " ++ cause /\
      contains "HTTP Request Error" m = true /\
      JSON_stringify (VObj [("errors", VArr [VObj [("message", VStr m)]])])
        = Some t /\
      result =
        Returned
          {| status := 200;
             headers := corsHeaders;
             body := JSON_stringify
               (VObj [("jsonrpc", VStr "2.0");
                      ("id", id);
                      ("result", VObj
                         [("content", VArr
                            [VObj [("type", VStr "text");
                                   ("text", VStr t)]])])]) |}.
Proof.
  intros requestBody params id net sent result out cause
         Hm Hid Hp Hn Run Sent Fails.
  destruct (tools_call_sent _ _ _ _ _ _ _ Hm Hid Hp Hn Run Sent)
    as [_ [_ ->]].
  exists ("HTTP Request Error connecting to Catalysis Hub: " ++ cause).
  eexists. split; [reflexivity |].
  split.
  { exact (contains_prefix "HTTP Request Error"
             (" connecting to Catalysis Hub: " ++ cause)). }
  split; [reflexivity |].
  assert (S : settle (net out) =
              errors_value
                ("HTTP Request Error connecting to Catalysis Hub: " ++ cause)).
  { destruct Fails as [Rejected | [response [Answered [NotOk ->]]]].
    - rewrite Rejected. reflexivity.
    - rewrite Answered. unfold settle. rewrite NotOk. reflexivity. }
  rewrite S. reflexivity.
Qed.

(** The scenario's request on a network that refuses the call. *)
Lemma upstream_failure_is_reported_as_data_witness :
  exists m t : string,
    m = "HTTP Request Error connecting to Catalysis Hub: " ++ "fetch failed" /\
    contains "HTTP Request Error" m = true /\
    JSON_stringify (VObj [("errors", VArr [VObj [("message", VStr m)]])])
      = Some t /\
    snd (fetch (post scenario_request) unreachable_network) =
      Returned
        {| status := 200;
           headers := corsHeaders;
           body := JSON_stringify
             (VObj [("jsonrpc", VStr "2.0");
                    ("id", VNum 1);
                    ("result", VObj
                       [("content", VArr
                          [VObj [("type", VStr "text");
                                 ("text", VStr t)]])])]) |}.
Proof.
  apply (upstream_failure_is_reported_as_data
           scenario_request scenario_params (VNum 1) unreachable_network
           [forward_request (VStr "query{__schema{queryType{name}}}") VUndefined]
           _
           (forward_request (VStr "query{__schema{queryType{name}}}") VUndefined)
           "fetch failed").
  - reflexivity.
  - reflexivity.
  - reflexivity.
  - reflexivity.
  - vm_compute. reflexivity.
  - left. reflexivity.
  - left. reflexivity.
Defined.

(** The scenario's request against an upstream that answers 503: the
    status becomes text in the message, the response stays a 200 result. *)
Example upstream_503_is_reported_as_data :
  fetch (post scenario_request) (answering 503 scenario_upstream_body) =
  ([forward_request (VStr "query{__schema{queryType{name}}}") VUndefined],
   Returned
     {| status := 200;
        headers := corsHeaders;
        body := Some (json_text
          "{'jsonrpc':'2.0','id':1,'result':{'content':[{'type':'text','text':'{\'errors\':[{\'message\':\'HTTP Request Error connecting to Catalysis Hub: HTTP error! status: 503\'}]}'}]}}") |}).
Proof. vm_compute. reflexivity. Qed.

(* ================================================================= *)
(** ** initialize *)

(** An [initialize] request that supplies the empty string as its protocol
    version is answered with the default version, not with the empty
    string it asked for. *)
Lemma initialize_empty_version_gets_default :
  Get initialize_with_empty_version "method" = Returned (VStr "initialize") /\
  (params <~ Get initialize_with_empty_version "params" ;;
   Get params "protocolVersion") = Returned (VStr EmptyString) /\
  fetch (post initialize_with_empty_version) unreachable_network =
    ([], Returned
       {| status := 200;
          headers := corsHeaders;
          body := Some (json_text
            "{'jsonrpc':'2.0','id':1,'result':{'protocolVersion':'2024-11-05','capabilities':{'tools':{}},'serverInfo':{'name':'CatalysisHub','version':'0.1.0'}}}") |}) /\
  fetch (post initialize_with_empty_version) unreachable_network <>
    ([], Returned
       {| status := 200;
          headers := corsHeaders;
          body := Some (json_text
            "{'jsonrpc':'2.0','id':1,'result':{'protocolVersion':'','capabilities':{'tools':{}},'serverInfo':{'name':'CatalysisHub','version':'0.1.0'}}}") |}).
Proof.
  repeat split; try (vm_compute; reflexivity).
  vm_compute. intros E. discriminate E.
Qed.

(** C4, amended.  The response to [initialize] is HTTP 200 with the
    request's id and a result whose [protocolVersion] is the requested
    [params.protocolVersion] verbatim when that is supplied and truthy, and
    the default "2024-11-05" when it is omitted or falsy (the empty string
    among others); the result also carries [capabilities: {tools: {}}] and
    [serverInfo: {name: "CatalysisHub", version: "0.1.0"}].  Nothing is
    sent upstream. *)
Theorem initialize_protocol_version :
  forall (requestBody params requested id : value) (net : Network),
    Get requestBody "method" = Returned (VStr "initialize") ->
    Get requestBody "params" = Returned params ->
    OptGet params "protocolVersion" = Returned requested ->
    Get requestBody "id" = Returned id ->
    fetch (post requestBody) net =
    ([], Returned
       {| status := 200;
          headers := corsHeaders;
          body := JSON_stringify
            (VObj [("jsonrpc", VStr "2.0");
                   ("id", id);
                   ("result", VObj
                      [("protocolVersion",
                        if truthy requested then requested
                        else VStr "2024-11-05");
                       ("capabilities", VObj [("tools", VObj [])]);
                       ("serverInfo", VObj [("name", VStr "CatalysisHub");
                                            ("version", VStr "0.1.0")])])]) |}).
Proof.
  intros requestBody params requested id net Hm Hp Hv Hid.
  apply fetch_post_returned.
  unfold route. rewrite bind_lift, Hm.
  change (is_string (VStr "initialize") "initialize") with true. cbv iota.
  unfold initialize.
  rewrite bind_lift, Hp, bind_lift, Hv, bind_lift, Hid.
  reflexivity.
Qed.

(** A supplied version is echoed. *)
Lemma initialize_protocol_version_witness :
  fetch (post initialize_with_version) unreachable_network =
  ([], Returned
     {| status := 200;
        headers := corsHeaders;
        body := Some (json_text
          "{'jsonrpc':'2.0','id':1,'result':{'protocolVersion':'2025-03-26','capabilities':{'tools':{}},'serverInfo':{'name':'CatalysisHub','version':'0.1.0'}}}") |}).
Proof.
  exact (initialize_protocol_version
           initialize_with_version
           (VObj [("protocolVersion", VStr "2025-03-26")])
           (VStr "2025-03-26") (VNum 1) unreachable_network
           eq_refl eq_refl eq_refl eq_refl).
Defined.

(* ================================================================= *)
(** ** Unknown methods, unknown tools, malformed bodies *)

(** An envelope without an id whose method is the empty string is not
    acknowledged with 204: the notification test asks for a truthy method,
    so the envelope reaches the method-not-found answer. *)
Lemma empty_method_without_id_is_an_error :
  Get empty_method_without_id "id" = Returned VUndefined /\
  fetch (post empty_method_without_id) unreachable_network =
    ([], Returned
       {| status := 404;
          headers := corsHeaders;
          body := Some (json_text
            "{'jsonrpc':'2.0','error':{'code':-32601,'message':'Method not found: '}}") |}).
Proof. split; vm_compute; reflexivity. Qed.

Lemma is_string_neq (s lit : string) :
  s <> lit -> is_string (VStr s) lit = false.
Proof. intros N. unfold is_string. apply String.eqb_neq. exact N. Qed.

(** C5, amended.  For an envelope whose method is a non-empty string
    outside initialize, notifications/initialized, tools/list and
    tools/call: sent with a truthy id, the answer is HTTP 404 with the
    JSON-RPC error envelope of code -32601 carrying that id; sent without
    an id, the answer is HTTP 204 with no body. *)
Theorem unknown_method_dispatch :
  forall (requestBody id : value) (method : string) (net : Network),
    Get requestBody "method" = Returned (VStr method) ->
    Get requestBody "id" = Returned id ->
    method <> EmptyString ->
    method <> "initialize" ->
    method <> "notifications/initialized" ->
    method <> "tools/list" ->
    method <> "tools/call" ->
    (truthy id = true ->
     fetch (post requestBody) net =
     ([], Returned
        {| status := 404;
           headers := corsHeaders;
           body := JSON_stringify
             (VObj [("jsonrpc", VStr "2.0");
                    ("id", id);
                    ("error", VObj
                       [("code", VNum (-32601));
                        ("message", VStr ("Method not found: " ++ method))])]) |}))
    /\
    (id = VUndefined ->
     fetch (post requestBody) net =
     ([], Returned {| status := 204; headers := corsHeaders; body := None |})).
Proof.
  intros requestBody id method net Hm Hid NE NI NN NL NC.
  pose proof (route_string_method requestBody id _ net Hm
                (is_string_neq _ _ NI) Hid) as R.
  rewrite (is_string_neq _ _ NL), (is_string_neq _ _ NC) in R.
  assert (T : truthy (VStr method) = true).
  { unfold truthy. apply negb_true_iff, String.eqb_neq. exact NE. }
  rewrite T, andb_true_l in R.
  split.
  - intros Tid. rewrite Tid in R. apply fetch_post_returned. exact R.
  - intros ->. apply fetch_post_returned. exact R.
Qed.

(** An unknown method with the id 7. *)
Lemma unknown_method_dispatch_witness :
  fetch (post unknown_method_request) unreachable_network =
  ([], Returned
     {| status := 404;
        headers := corsHeaders;
        body := Some (json_text
          "{'jsonrpc':'2.0','id':7,'error':{'code':-32601,'message':'Method not found: resources/list'}}") |}).
Proof.
  refine (proj1 (unknown_method_dispatch
                   unknown_method_request (VNum 7) "resources/list"
                   unreachable_network eq_refl eq_refl _ _ _ _ _) eq_refl);
    intros E; discriminate E.
Defined.

(** With a truthy id, a call of a tool whose name is another string is
    answered 404 with the error code -32601. *)
Lemma unknown_tool_not_found (requestBody params id : value) (name : string)
      (net : Network) :
  Get requestBody "method" = Returned (VStr "tools/call") ->
  Get requestBody "id" = Returned id ->
  truthy id = true ->
  Get requestBody "params" = Returned params ->
  Get params "name" = Returned (VStr name) ->
  name <> "catalysishub_graphql" ->
  fetch (post requestBody) net =
  ([], Returned
     {| status := 404;
        headers := corsHeaders;
        body := JSON_stringify
          (VObj [("jsonrpc", VStr "2.0");
                 ("id", id);
                 ("error", VObj
                    [("code", VNum (-32601));
                     ("message", VStr ("Tool not found: " ++ name))])]) |}).
Proof.
  intros Hm Hid Tid Hp Hn NT.
  apply fetch_post_returned.
  rewrite (route_string_method requestBody id _ net Hm eq_refl Hid).
  rewrite Tid.
  change (truthy (VStr "tools/call") && negb true) with false.
  change (is_string (VStr "tools/call") "tools/list") with false.
  change (is_string (VStr "tools/call") "tools/call") with true.
  cbv iota. unfold tools_call.
  destruct (Get_string_is_object _ _ _ Hn) as [fields ->].
  rewrite bind_lift, Hp. cbv iota beta.
  rewrite bind_lift. cbv [destructurable]. cbv iota beta.
  rewrite bind_lift, Hn. cbv iota beta.
  rewrite bind_lift.
  change (Get (VObj fields) "arguments")
    with (Returned (own_property fields "arguments")).
  cbv iota beta.
  rewrite (is_string_neq _ _ NT). cbv iota.
  rewrite bind_lift, Hid. reflexivity.
Qed.

(** C6.  The call of an unknown tool sent with the id 0 gets HTTP 204 and
    no body, where the same call with the id 1 gets HTTP 404 and the error
    envelope of code -32601: the notification test reads the id 0 as no id. *)
Theorem unknown_tool_with_id_zero :
  forall net : Network,
    fetch (post unknown_tool_call_id_zero) net =
      ([], Returned {| status := 204; headers := corsHeaders; body := None |})
    /\
    fetch (post unknown_tool_call_id_one) net =
      ([], Returned
         {| status := 404;
            headers := corsHeaders;
            body := Some (json_text
              "{'jsonrpc':'2.0','id':1,'error':{'code':-32601,'message':'Tool not found: no_such_tool'}}") |}).
Proof. intros net. split; vm_compute; reflexivity. Qed.

(** C7.  A POST whose body cannot be read as JSON does not escape the
    handler: whatever [request.json()] throws, the answer is HTTP 500 with
    the JSON-RPC error envelope of code -32603, message
    "Internal server error" and id [null], and nothing is sent upstream. *)
Theorem malformed_body_is_internal_error :
  forall (request : Request) (e : exn) (net : Network),
    req_method request = "POST" ->
    req_json request = Thrown e ->
    fetch request net =
    ([], Returned
       {| status := 500;
          headers := corsHeaders;
          body := Some (json_text
            "{'jsonrpc':'2.0','error':{'code':-32603,'message':'Internal server error'},'id':null}") |}).
Proof.
  intros request e net Hpost Hjson.
  unfold fetch, try_catch. rewrite Hpost.
  change (String.eqb "POST" "OPTIONS") with false.
  change (String.eqb "POST" "POST") with true. cbv [negb]. cbv iota.
  rewrite bind_lift, Hjson. reflexivity.
Qed.

Lemma malformed_body_is_internal_error_witness :
  fetch unparseable_post unreachable_network =
  ([], Returned
     {| status := 500;
        headers := corsHeaders;
        body := Some (json_text
          "{'jsonrpc':'2.0','error':{'code':-32603,'message':'Internal server error'},'id':null}") |}).
Proof.
  exact (malformed_body_is_internal_error
           unparseable_post (ErrorInstance "Unexpected end of JSON input")
           unreachable_network eq_refl eq_refl).
Defined.

(* ================================================================= *)
(** ** The notification test *)

(** An envelope with the id 0 whose method is present but is the empty
    string is not treated as a notification: it gets HTTP 404 and a
    JSON-RPC error envelope. *)
Lemma empty_method_id_zero_is_answered :
  Get empty_method_id_zero "method" = Returned (VStr EmptyString) /\
  is_string (VStr EmptyString) "initialize" = false /\
  Get empty_method_id_zero "id" = Returned (VNum 0) /\
  fetch (post empty_method_id_zero) unreachable_network =
    ([], Returned
       {| status := 404;
          headers := corsHeaders;
          body := Some (json_text
            "{'jsonrpc':'2.0','id':0,'error':{'code':-32601,'message':'Method not found: '}}") |}).
Proof. repeat split; vm_compute; reflexivity. Qed.

(** C9, amended.  The notification test is a falsy check on the id: an
    envelope whose method is truthy (a non-empty string) and not
    "initialize", and whose id is 0 or the empty string, is answered with
    HTTP 204 and no body, and nothing is sent upstream; a [tools/call]
    with the id 0 is such an envelope. *)
Theorem falsy_id_is_a_notification :
  forall (requestBody id : value) (method : string) (net : Network),
    Get requestBody "method" = Returned (VStr method) ->
    method <> EmptyString ->
    method <> "initialize" ->
    Get requestBody "id" = Returned id ->
    id = VNum 0 \/ id = VStr EmptyString ->
    fetch (post requestBody) net =
    ([], Returned {| status := 204; headers := corsHeaders; body := None |}).
Proof.
  intros requestBody id method net Hm NE NI Hid Falsy.
  apply fetch_post_returned.
  rewrite (route_string_method requestBody id method net Hm
             (is_string_neq _ _ NI) Hid).
  assert (T : truthy (VStr method) = true).
  { unfold truthy. apply negb_true_iff, String.eqb_neq. exact NE. }
  rewrite T.
  destruct Falsy as [-> | ->]; reflexivity.
Qed.

(** The scenario's call with the id 0 never reaches the upstream, although
    the upstream would answer. *)
Lemma falsy_id_is_a_notification_witness :
  fetch (post scenario_request_id_zero) (answering 200 scenario_upstream_body) =
  ([], Returned {| status := 204; headers := corsHeaders; body := None |}).
Proof.
  refine (falsy_id_is_a_notification
            scenario_request_id_zero (VNum 0) "tools/call"
            (answering 200 scenario_upstream_body)
            eq_refl _ _ eq_refl (or_introl eq_refl));
    intros E; discriminate E.
Defined.

(** A method that cannot be printed: the console line of the notification
    branch throws, and the outermost [catch] answers. *)
Example unprintable_method_notification_is_internal_error :
  fetch (post unprintable_method_id_zero) unreachable_network =
  ([], Returned
     {| status := 500;
        headers := corsHeaders;
        body := Some (json_text
          "{'jsonrpc':'2.0','error':{'code':-32603,'message':'Internal server error'},'id':null}") |}).
Proof. vm_compute. reflexivity. Qed.

(* ================================================================= *)
(** ** The inner catch of tools/call *)

(** A call of the known tool with an arguments object whose [query] is the
    number 5 is caught by the inner [catch]: the console line calls
    [slice] on the number before the forwarder is reached, and the answer
    is HTTP 500 with the error code -32603. *)
Lemma numeric_query_reaches_inner_catch :
  Get numeric_query_call "method" = Returned (VStr "tools/call") /\
  (params <~ Get numeric_query_call "params" ;; Get params "name") =
    Returned (VStr "catalysishub_graphql") /\
  (params <~ Get numeric_query_call "params" ;; Get params "arguments") =
    Returned (VObj [("query", VNum 5)]) /\
  exists why : string,
    fetch (post numeric_query_call) (answering 200 scenario_upstream_body) =
      ([], Returned
         {| status := 500;
            headers := corsHeaders;
            body := JSON_stringify
              (VObj [("jsonrpc", VStr "2.0");
                     ("id", VNum 1);
                     ("error", VObj
                        [("code", VNum (-32603));
                         ("message",
                          VStr ("Tool execution failed: " ++ why))])]) |}).
Proof.
  repeat split; try (vm_compute; reflexivity).
  exists "args.query?.slice is not a function". vm_compute. reflexivity.
Qed.

(** C10, amended.  For a [tools/call] sent with a truthy id, with
    [params.name] "catalysishub_graphql" and a [params.arguments] object
    whose [query] is a string, null or absent, the inner [catch] is not
    taken: the forwarder is called once, returns a value, and the answer is
    HTTP 200 with the success envelope around that value. *)
Theorem known_tool_call_succeeds :
  forall (requestBody params id : value) (fields : list (string * value))
         (net : Network),
    Get requestBody "method" = Returned (VStr "tools/call") ->
    Get requestBody "id" = Returned id ->
    truthy id = true ->
    Get requestBody "params" = Returned params ->
    Get params "name" = Returned (VStr "catalysishub_graphql") ->
    Get params "arguments" = Returned (VObj fields) ->
    (exists q : string, own_property fields "query" = VStr q) \/
    own_property fields "query" = VNull \/
    own_property fields "query" = VUndefined ->
    let query := own_property fields "query" in
    let variables := own_property fields "variables" in
    exists result : value,
      executeGraphQLQuery query variables net =
        ([forward_request query variables], Returned result) /\
      fetch (post requestBody) net =
        ([forward_request query variables],
         Returned
           {| status := 200;
              headers := corsHeaders;
              body := JSON_stringify
                (VObj [("jsonrpc", VStr "2.0");
                       ("id", id);
                       ("result", VObj
                          [("content", VArr
                             [VObj [("type", VStr "text");
                                    ("text", string_or_undefined
                                               (JSON_stringify result))]])])]) |}).
Proof.
  intros requestBody params id fields net Hm Hid Tid Hp Hn Ha Hq query variables.
  exists (settle (net (forward_request query variables))).
  split; [apply executeGraphQLQuery_run |].
  apply fetch_post_returned.
  rewrite (route_string_method requestBody id _ net Hm eq_refl Hid), Tid.
  change (truthy (VStr "tools/call") && negb true) with false.
  change (is_string (VStr "tools/call") "tools/list") with false.
  change (is_string (VStr "tools/call") "tools/call") with true.
  cbv iota.
  rewrite (tools_call_known requestBody params _ id net Hp Hn Ha Hid).
  assert (C : call_arguments (VObj fields) = Returned (query, variables)).
  { unfold call_arguments.
    change (Get (VObj fields) "query") with (Returned query).
    change (Get (VObj fields) "variables") with (Returned variables).
    unfold obind.
    destruct Hq as [[q Hq] | [Hq | Hq]]; fold query in Hq; rewrite Hq;
      reflexivity. }
  rewrite C. reflexivity.
Qed.

(** The scenario's request is in the domain of the statement. *)
Lemma known_tool_call_succeeds_witness :
  exists result : value,
    executeGraphQLQuery (VStr "query{__schema{queryType{name}}}") VUndefined
        (answering 200 scenario_upstream_body) =
      ([forward_request (VStr "query{__schema{queryType{name}}}") VUndefined],
       Returned result) /\
    fetch (post scenario_request) (answering 200 scenario_upstream_body) =
      ([forward_request (VStr "query{__schema{queryType{name}}}") VUndefined],
       Returned
         {| status := 200;
            headers := corsHeaders;
            body := JSON_stringify
              (VObj [("jsonrpc", VStr "2.0");
                     ("id", VNum 1);
                     ("result", VObj
                        [("content", VArr
                           [VObj [("type", VStr "text");
                                  ("text", string_or_undefined
                                             (JSON_stringify result))]])])]) |}).
Proof.
  exact (known_tool_call_succeeds
           scenario_request scenario_params (VNum 1)
           [("query", VStr "query{__schema{queryType{name}}}")]
           (answering 200 scenario_upstream_body)
           eq_refl eq_refl eq_refl eq_refl eq_refl eq_refl
           (or_introl (ex_intro _ "query{__schema{queryType{name}}}" eq_refl))).
Defined.

(** Bodies that are JSON texts but not objects: [null] fails at the first
    property read and takes the same way out; a number parses, has no
    method, and is answered as an unknown method without an id member. *)
Lemma null_body_is_internal_error (net : Network) :
  fetch (post VNull) net =
  ([], Returned (json_response 500 internal_error_envelope)).
Proof.
  apply (fetch_post_thrown VNull net []
           (ErrorInstance "Cannot read properties of null (reading 'method')")).
  reflexivity.
Qed.

Example number_body_is_method_not_found :
  fetch (post (VNum 5)) unreachable_network =
  ([], Returned
     {| status := 404;
        headers := corsHeaders;
        body := Some (json_text
          "{'jsonrpc':'2.0','error':{'code':-32601,'message':'Method not found: undefined'}}") |}).
Proof. vm_compute. reflexivity. Qed.

(* ================================================================= *)
(** ** Every way through the router *)

Lemma Get_not_nullish (v : value) (k : string) :
  nullish v = false -> Get v k = Returned (prop v k).
Proof. destruct v; intros N; try discriminate N; reflexivity. Qed.

Lemma Get_nullish (v : value) (k : string) :
  nullish v = true -> exists e, Get v k = Thrown e.
Proof. destruct v; intros N; try discriminate N; eexists; reflexivity. Qed.

Lemma OptGet_returns (v : value) (k : string) :
  exists r, OptGet v k = Returned r.
Proof. destruct v; eexists; reflexivity. Qed.

Lemma is_string_true (v : value) (lit : string) :
  is_string v lit = true -> v = VStr lit.
Proof.
  destruct v; intros E; try discriminate E.
  apply String.eqb_eq in E. subst. reflexivity.
Qed.

Lemma route_initialize (requestBody : value) (net : Network) :
  nullish requestBody = false ->
  is_string (prop requestBody "method") "initialize" = true ->
  exists fields,
    route requestBody net = ([], Returned (json_response 200 (VObj fields))).
Proof.
  intros N I. unfold route.
  rewrite bind_lift, (Get_not_nullish _ _ N), I. unfold initialize.
  rewrite bind_lift, (Get_not_nullish _ _ N).
  destruct (OptGet_returns (prop requestBody "params") "protocolVersion")
    as [requested R].
  rewrite bind_lift, R, bind_lift, (Get_not_nullish _ _ N).
  eexists. reflexivity.
Qed.

Lemma tools_call_without_params (requestBody : value) (net : Network) :
  nullish requestBody = false ->
  nullish (prop requestBody "params") = true ->
  exists e, tools_call requestBody net = ([], Thrown e).
Proof.
  intros N P. unfold tools_call.
  rewrite bind_lift, (Get_not_nullish _ _ N).
  destruct (prop requestBody "params"); try discriminate P;
    rewrite bind_lift; eexists; reflexivity.
Qed.

Lemma tools_call_other_name (requestBody : value) (net : Network) :
  nullish requestBody = false ->
  nullish (prop requestBody "params") = false ->
  is_string (prop (prop requestBody "params") "name") "catalysishub_graphql"
    = false ->
  tools_call requestBody net =
  match ToString (prop (prop requestBody "params") "name") with
  | Returned nameText =>
      ([], Returned (json_response 404
             (error_envelope (prop requestBody "id") (-32601)
                ("Tool not found: " ++ nameText))))
  | Thrown e => ([], Thrown e)
  end.
Proof.
  intros N P Other. unfold tools_call.
  rewrite bind_lift, (Get_not_nullish _ _ N).
  assert (D : destructurable (prop requestBody "params") = Returned tt).
  { destruct (prop requestBody "params"); try discriminate P; reflexivity. }
  rewrite bind_lift, D.
  rewrite bind_lift, (Get_not_nullish _ _ P).
  rewrite bind_lift, (Get_not_nullish _ _ P).
  rewrite Other.
  rewrite bind_lift, (Get_not_nullish _ _ N).
  rewrite bind_lift.
  destruct (ToString (prop (prop requestBody "params") "name")); reflexivity.
Qed.

(** The four ways out of [route]: an exception before anything was sent, the
    empty acknowledgement, a JSON answer without an upstream call, or the
    success envelope around the forwarder's result. *)
Lemma route_cases (requestBody : value) (net : Network) :
  (exists e, route requestBody net = ([], Thrown e)) \/
  route requestBody net = ([], Returned no_content) \/
  (exists st fields,
      (st = 200 \/ st = 404 \/ st = 500) /\
      route requestBody net = ([], Returned (json_response st (VObj fields)))) \/
  (exists query variables,
      reaches_forwarder requestBody query variables /\
      route requestBody net =
        ([forward_request query variables],
         Returned (json_response 200
                     (call_envelope (prop requestBody "id")
                        (settle (net (forward_request query variables))))))).
Proof.
  destruct (nullish requestBody) eqn:N.
  { left. destruct (Get_nullish requestBody "method" N) as [e G].
    exists e. unfold route. rewrite bind_lift, G. reflexivity. }
  destruct (is_string (prop requestBody "method") "initialize") eqn:I.
  { right. right. left.
    destruct (route_initialize requestBody net N I) as [fields R].
    exists 200, fields. split; [left; reflexivity | exact R]. }
  rewrite (route_not_initialize requestBody _ _ net
             (Get_not_nullish _ _ N) I (Get_not_nullish _ _ N)).
  destruct (truthy (prop requestBody "method")
            && negb (truthy (prop requestBody "id"))) eqn:Notification.
  { destruct (is_string (prop requestBody "method")
                "notifications/initialized").
    - right. left. reflexivity.
    - destruct (ToString (prop requestBody "method")) as [text | e].
      + right. left. reflexivity.
      + left. exists e. reflexivity. }
  destruct (is_string (prop requestBody "method") "tools/list").
  { right. right. left. exists 200. eexists.
    split; [left; reflexivity | reflexivity]. }
  destruct (is_string (prop requestBody "method") "tools/call") eqn:Call.
  2: { destruct (ToString (prop requestBody "method")) as [text | e].
       - right. right. left. exists 404. eexists.
         split; [right; left; reflexivity | reflexivity].
       - left. exists e. reflexivity. }
  apply is_string_true in Call.
  rewrite Call in Notification. cbn [truthy] in Notification.
  change (negb (String.eqb "tools/call" EmptyString)) with true in Notification.
  rewrite andb_true_l in Notification.
  apply negb_false_iff in Notification.
  destruct (nullish (prop requestBody "params")) eqn:P.
  { left. apply tools_call_without_params; assumption. }
  destruct (is_string (prop (prop requestBody "params") "name")
              "catalysishub_graphql") eqn:Known.
  2: { rewrite (tools_call_other_name requestBody net N P Known).
       destruct (ToString (prop (prop requestBody "params") "name"))
         as [text | e].
       - right. right. left. exists 404. eexists.
         split; [right; left; reflexivity | reflexivity].
       - left. exists e. reflexivity. }
  apply is_string_true in Known.
  assert (Name : Get (prop requestBody "params") "name" =
                 Returned (VStr "catalysishub_graphql")).
  { rewrite (Get_not_nullish _ _ P), Known. reflexivity. }
  rewrite (tools_call_known requestBody (prop requestBody "params")
             (prop (prop requestBody "params") "arguments")
             (prop requestBody "id") net
             (Get_not_nullish _ _ N) Name
             (Get_not_nullish _ _ P) (Get_not_nullish _ _ N)).
  destruct (call_arguments (prop (prop requestBody "params") "arguments"))
    as [[query variables] | e] eqn:Args.
  - right. right. right. exists query, variables. split; [| reflexivity].
    unfold reaches_forwarder. rewrite (Get_not_nullish _ _ N), Call.
    repeat split; assumption.
  - right. right. left. exists 500. eexists.
    split; [right; right; reflexivity | reflexivity].
Qed.

Lemma call_arguments_returned (args query variables : value) :
  call_arguments args = Returned (query, variables) ->
  query = prop args "query" /\ variables = prop args "variables".
Proof.
  unfold call_arguments, obind. intros C.
  destruct (nullish args) eqn:N.
  - destruct (Get_nullish args "query" N) as [e G].
    rewrite G in C. discriminate C.
  - rewrite !(Get_not_nullish _ _ N) in C.
    destruct (query_slice (prop args "query")) as [preview | e];
      [| discriminate C].
    destruct (ToString preview); [| discriminate C].
    injection C as <- <-. split; reflexivity.
Qed.

Lemma request_data_members (query variables : value) :
  request_data query variables =
  VObj (("query", query)
        :: (if truthy variables then [("variables", variables)] else [])).
Proof. unfold request_data. destruct (truthy variables); reflexivity. Qed.

(** The ways out of the handler: the router's, with every exception turned
    into the internal-error answer, and the banner for other HTTP methods. *)
Lemma fetch_cases (request : Request) (net : Network) :
  fetch request net = ([], Returned no_content) \/
  (req_method request <> "POST" /\
   fetch request net = ([], Returned ready_banner)) \/
  (exists st fields,
      (st = 200 \/ st = 404 \/ st = 500) /\
      fetch request net = ([], Returned (json_response st (VObj fields)))) \/
  (exists requestBody query variables,
      request = post requestBody /\
      reaches_forwarder requestBody query variables /\
      fetch request net =
        ([forward_request query variables],
         Returned (json_response 200
                     (call_envelope (prop requestBody "id")
                        (settle (net (forward_request query variables))))))).
Proof.
  destruct request as [method parsed].
  destruct (String.eqb_spec method "OPTIONS") as [-> | NotOptions].
  { left. reflexivity. }
  assert (O : String.eqb method "OPTIONS" = false)
    by (apply String.eqb_neq; exact NotOptions).
  destruct (String.eqb_spec method "POST") as [-> | NotPost].
  2: { right. left. split; [exact NotPost |].
       unfold fetch, try_catch. cbn [req_method req_json].
       rewrite O. apply String.eqb_neq in NotPost. rewrite NotPost.
       reflexivity. }
  destruct parsed as [requestBody | e].
  2: { right. right. left. exists 500. eexists.
       split; [right; right; reflexivity |].
       unfold fetch, try_catch. cbn [req_method req_json].
       change (String.eqb "POST" "OPTIONS") with false.
       change (String.eqb "POST" "POST") with true. cbv [negb]. cbv iota.
       rewrite bind_lift. reflexivity. }
  change {| req_method := "POST"; req_json := Returned requestBody |}
    with (post requestBody).
  destruct (route_cases requestBody net)
    as [[e R] | [R | [[st [fields [St R]]] | [query [variables [Reach R]]]]]].
  - right. right. left. exists 500. eexists.
    split; [right; right; reflexivity |].
    exact (fetch_post_thrown _ _ _ _ R).
  - left. exact (fetch_post_returned _ _ _ _ R).
  - right. right. left. exists st, fields.
    split; [exact St | exact (fetch_post_returned _ _ _ _ R)].
  - right. right. right. exists requestBody, query, variables.
    split; [reflexivity |]. split; [exact Reach |].
    exact (fetch_post_returned _ _ _ _ R).
Qed.

(* ================================================================= *)
(** ** What the handler always and never does *)

(** X1.  The handler never throws: whatever the HTTP method, whatever
    reading the body gives, whatever the envelope holds and however the
    network behaves, [fetch] returns a response. *)
Theorem fetch_never_throws :
  forall (request : Request) (net : Network),
    exists (sent : list Outbound) (response : Response),
      fetch request net = (sent, Returned response).
Proof.
  intros request net.
  destruct (fetch_cases request net)
    as [R | [[_ R] | [[st [fields [_ R]]] | [rb [q [v [_ [_ R]]]]]]]];
    rewrite R; eexists; eexists; reflexivity.
Qed.

(** X2.  Every response, the error answers included, carries the three
    CORS headers: any origin, the methods GET, POST and OPTIONS, and the
    request header Content-Type.  Its content type is application/json,
    except for the plain-text banner given to requests that are not POST. *)
Theorem every_response_carries_cors_headers :
  forall (request : Request) (net : Network),
    exists (sent : list Outbound) (response : Response),
      fetch request net = (sent, Returned response) /\
      header (headers response) "Access-Control-Allow-Origin" = Some "*" /\
      header (headers response) "Access-Control-Allow-Methods"
        = Some "GET, POST, OPTIONS" /\
      header (headers response) "Access-Control-Allow-Headers"
        = Some "Content-Type" /\
      (header (headers response) "Content-Type" = Some "application/json" \/
       (req_method request <> "POST" /\
        header (headers response) "Content-Type" = Some "text/plain")).
Proof.
  intros request net.
  destruct (fetch_cases request net)
    as [R | [[NotPost R] | [[st [fields [_ R]]] | [rb [q [v [_ [_ R]]]]]]]];
    rewrite R; eexists; eexists; (split; [reflexivity |]);
    repeat split; try (left; reflexivity).
  right. split; [exact NotPost | reflexivity].
Qed.

(** X3.  The status of a response is 200, 204, 404 or 500, and a response
    has no body exactly when its status is 204. *)
Theorem response_status_and_body :
  forall (request : Request) (net : Network),
    exists (sent : list Outbound) (response : Response),
      fetch request net = (sent, Returned response) /\
      (status response = 200 \/ status response = 204 \/
       status response = 404 \/ status response = 500) /\
      (body response = None <-> status response = 204).
Proof.
  intros request net.
  destruct (fetch_cases request net)
    as [R | [[_ R] | [[st [fields [St R]]] | [rb [q [v [_ [_ R]]]]]]]];
    rewrite R; eexists; eexists; (split; [reflexivity |]).
  - split; [right; left; reflexivity |]. split; reflexivity.
  - split; [left; reflexivity |].
    split; intros E; discriminate E.
  - cbn [status body json_response]. split.
    + destruct St as [-> | [-> | ->]]; auto.
    + split; [intros E; discriminate E |].
      intros E. destruct St as [-> | [-> | ->]]; discriminate E.
  - split; [left; reflexivity |].
    split; intros E; discriminate E.
Qed.

(** X4.  Handling one request sends at most one request upstream.  That
    one is a POST to the fixed GraphQL endpoint with the two fixed headers,
    and its body is the JSON text of the data object built from the
    envelope's [params.arguments]: [query] under the key "query", followed
    by [variables] under the key "variables" when that is truthy. *)
Theorem upstream_contacted_at_most_once :
  forall (request : Request) (net : Network),
    exists (sent : list Outbound) (response : Response),
      fetch request net = (sent, Returned response) /\
      (sent = [] \/
       exists (requestBody : value) (text : string),
         req_json request = Returned requestBody /\
         JSON_stringify
           (VObj
              (("query",
                prop (prop (prop requestBody "params") "arguments") "query")
               :: (if truthy
                        (prop (prop (prop requestBody "params") "arguments")
                           "variables")
                   then [("variables",
                          prop (prop (prop requestBody "params") "arguments")
                            "variables")]
                   else [])))
           = Some text /\
         sent =
           [{| out_url := "http://api.catalysis-hub.org/graphql";
               out_init :=
                 {| init_method := "POST";
                    init_headers :=
                      [("Content-Type", "application/json");
                       ("User-Agent", "MCPCatalysisHubServer/0.1.0")];
                    init_body := Some text |} |}]).
Proof.
  intros request net.
  destruct (fetch_cases request net)
    as [R | [[_ R] | [[st [fields [_ R]]] | [rb [q [v [-> [Reach R]]]]]]]];
    rewrite R; eexists; eexists; (split; [reflexivity |]);
    try (left; reflexivity).
  right. destruct Reach as [_ [_ [_ Args]]].
  destruct (call_arguments_returned _ _ _ Args) as [-> ->].
  exists rb. eexists. split; [reflexivity |].
  split; [reflexivity |].
  unfold forward_request. rewrite request_data_members. reflexivity.
Qed.

(** X5.  The upstream is contacted only for a POST whose envelope is a
    [tools/call] of "catalysishub_graphql" with a truthy id: no other
    method, no notification, no unknown tool and no malformed body causes
    an outbound request. *)
Theorem upstream_only_for_known_tool_call :
  forall (request : Request) (net : Network),
    exists (sent : list Outbound) (response : Response),
      fetch request net = (sent, Returned response) /\
      (sent = [] \/
       exists requestBody id params : value,
         req_method request = "POST" /\
         req_json request = Returned requestBody /\
         Get requestBody "method" = Returned (VStr "tools/call") /\
         Get requestBody "id" = Returned id /\
         truthy id = true /\
         Get requestBody "params" = Returned params /\
         Get params "name" = Returned (VStr "catalysishub_graphql") /\
         status response = 200).
Proof.
  intros request net.
  destruct (fetch_cases request net)
    as [R | [[_ R] | [[st [fields [_ R]]] | [rb [q [v [-> [Reach R]]]]]]]];
    rewrite R; eexists; eexists; (split; [reflexivity |]);
    try (left; reflexivity).
  right. destruct Reach as [Method [Id [Name _]]].
  assert (N : nullish rb = false).
  { destruct rb; try discriminate Method; reflexivity. }
  exists rb, (prop rb "id"), (prop rb "params").
  repeat split; try assumption; apply Get_not_nullish; exact N.
Qed.

(** X6.  A request that is not a POST is answered without reading its body
    and without contacting the upstream: OPTIONS gets 204 with no body,
    every other method gets 200 with the plain-text banner, even when the
    body could not be parsed. *)
Theorem non_post_requests_are_not_parsed :
  forall (method : string) (parsed : outcome value) (net : Network),
    method <> "POST" ->
    fetch {| req_method := method; req_json := parsed |} net =
    ([], Returned
       (if String.eqb method "OPTIONS"
        then {| status := 204; headers := corsHeaders; body := None |}
        else {| status := 200;
                headers := plainHeaders;
                body := Some "Catalysis Hub MCP Server - Ready" |})).
Proof.
  intros method parsed net NotPost.
  unfold fetch, try_catch. cbn [req_method req_json].
  destruct (String.eqb method "OPTIONS"); [reflexivity |].
  apply String.eqb_neq in NotPost. rewrite NotPost. reflexivity.
Qed.

Lemma non_post_requests_are_not_parsed_witness :
  fetch {| req_method := "GET";
           req_json := Thrown (ErrorInstance "Unexpected end of JSON input") |}
        unreachable_network =
  ([], Returned
     {| status := 200;
        headers := plainHeaders;
        body := Some "Catalysis Hub MCP Server - Ready" |}).
Proof.
  refine (non_post_requests_are_not_parsed
            "GET" (Thrown (ErrorInstance "Unexpected end of JSON input"))
            unreachable_network _).
  intros E. discriminate E.
Defined.

(* ================================================================= *)
(** ** The static methods *)

Lemma route_tools_call (requestBody id : value) (net : Network) :
  Get requestBody "method" = Returned (VStr "tools/call") ->
  Get requestBody "id" = Returned id ->
  truthy id = true ->
  route requestBody net = tools_call requestBody net.
Proof.
  intros Hm Hid Tid.
  rewrite (route_string_method requestBody id _ net Hm eq_refl Hid), Tid.
  reflexivity.
Qed.

Lemma Get_returned_not_nullish (v r : value) (k : string) :
  Get v k = Returned r -> nullish v = false /\ r = prop v k.
Proof.
  destruct v; intros G; try discriminate G; injection G as <-;
    split; reflexivity.
Qed.

(** X7.  [tools/list] sent with a truthy id is answered HTTP 200 with the
    request's id and the static catalogue, whatever else the envelope holds
    ([params] included) and whatever the network does; the catalogue
    advertises the one tool "catalysishub_graphql", and nothing is sent
    upstream. *)
Theorem tools_list_is_static :
  forall (requestBody id : value) (net : Network),
    Get requestBody "method" = Returned (VStr "tools/list") ->
    Get requestBody "id" = Returned id ->
    truthy id = true ->
    fetch (post requestBody) net =
      ([], Returned
         {| status := 200;
            headers := corsHeaders;
            body := JSON_stringify
              (VObj [("jsonrpc", VStr "2.0");
                     ("id", id);
                     ("result", VObj [("tools", tools)])]) |}) /\
    tool_names tools = [VStr "catalysishub_graphql"].
Proof.
  intros requestBody id net Hm Hid Tid. split; [| reflexivity].
  apply fetch_post_returned.
  rewrite (route_string_method requestBody id _ net Hm eq_refl Hid), Tid.
  reflexivity.
Qed.

Lemma tools_list_is_static_witness :
  fetch (post tools_list_request) unreachable_network =
    ([], Returned
       {| status := 200;
          headers := corsHeaders;
          body := JSON_stringify
            (VObj [("jsonrpc", VStr "2.0");
                   ("id", VNum 2);
                   ("result", VObj [("tools", tools)])]) |}) /\
  tool_names tools = [VStr "catalysishub_graphql"].
Proof.
  exact (tools_list_is_static tools_list_request (VNum 2) unreachable_network
           eq_refl eq_refl eq_refl).
Defined.

(** X8.  [tools/call] accepts exactly the names that [tools/list]
    advertises.  For a call with a truthy id, a string tool name and an
    arguments object whose query is a string: when the name is in the
    catalogue the forwarder is called and the answer is HTTP 200; when it is
    not, nothing is sent and the answer is HTTP 404. *)
Theorem advertised_tools_are_the_callable_ones :
  forall (requestBody params id : value) (fields : list (string * value))
         (name q : string) (net : Network),
    Get requestBody "method" = Returned (VStr "tools/call") ->
    Get requestBody "id" = Returned id ->
    truthy id = true ->
    Get requestBody "params" = Returned params ->
    Get params "name" = Returned (VStr name) ->
    Get params "arguments" = Returned (VObj fields) ->
    own_property fields "query" = VStr q ->
    exists (sent : list Outbound) (response : Response),
      fetch (post requestBody) net = (sent, Returned response) /\
      (In (VStr name) (tool_names tools) ->
       status response = 200 /\
       sent = [forward_request (VStr q) (own_property fields "variables")]) /\
      (~ In (VStr name) (tool_names tools) ->
       status response = 404 /\ sent = []).
Proof.
  intros requestBody params id fields name q net Hm Hid Tid Hp Hn Ha Hq.
  destruct (string_dec name "catalysishub_graphql") as [-> | Other].
  - assert (C : call_arguments (VObj fields) =
                Returned (VStr q, own_property fields "variables")).
    { unfold call_arguments.
      change (Get (VObj fields) "query")
        with (Returned (own_property fields "query")).
      rewrite Hq. reflexivity. }
    eexists. eexists. split.
    + apply fetch_post_returned.
      rewrite (route_tools_call _ _ _ Hm Hid Tid).
      rewrite (tools_call_known _ _ _ _ net Hp Hn Ha Hid), C. reflexivity.
    + split; [intros _; split; reflexivity |].
      intros Out. exfalso. apply Out. left. reflexivity.
  - eexists. eexists. split.
    + exact (unknown_tool_not_found _ _ _ _ net Hm Hid Tid Hp Hn Other).
    + split; [| intros _; split; reflexivity].
      intros [Listed | []]. injection Listed as L.
      exfalso. apply Other. symmetry. exact L.
Qed.

Lemma advertised_tools_are_the_callable_ones_witness :
  exists (sent : list Outbound) (response : Response),
    fetch (post scenario_request) unreachable_network
      = (sent, Returned response) /\
    (In (VStr "catalysishub_graphql") (tool_names tools) ->
     status response = 200 /\
     sent = [forward_request (VStr "query{__schema{queryType{name}}}")
               (own_property
                  [("query", VStr "query{__schema{queryType{name}}}")]
                  "variables")]) /\
    (~ In (VStr "catalysishub_graphql") (tool_names tools) ->
     status response = 404 /\ sent = []).
Proof.
  exact (advertised_tools_are_the_callable_ones
           scenario_request scenario_params (VNum 1)
           [("query", VStr "query{__schema{queryType{name}}}")]
           "catalysishub_graphql" "query{__schema{queryType{name}}}"
           unreachable_network
           eq_refl eq_refl eq_refl eq_refl eq_refl eq_refl eq_refl).
Defined.

(** X9.  [notifications/initialized] is acknowledged only as a
    notification.  Without an id (or with a falsy one) it gets HTTP 204 and
    no body, whatever its [params]; sent with a truthy id it is not among
    the methods the router answers, and gets HTTP 404 with the error code
    -32601. *)
Theorem notifications_initialized_needs_no_id :
  forall (requestBody id : value) (net : Network),
    Get requestBody "method" = Returned (VStr "notifications/initialized") ->
    Get requestBody "id" = Returned id ->
    (truthy id = false ->
     fetch (post requestBody) net =
     ([], Returned {| status := 204; headers := corsHeaders; body := None |}))
    /\
    (truthy id = true ->
     fetch (post requestBody) net =
     ([], Returned
        {| status := 404;
           headers := corsHeaders;
           body := JSON_stringify
             (VObj [("jsonrpc", VStr "2.0");
                    ("id", id);
                    ("error", VObj
                       [("code", VNum (-32601));
                        ("message",
                         VStr "Method not found: notifications/initialized")])])
        |})).
Proof.
  intros requestBody id net Hm Hid.
  pose proof (route_string_method requestBody id _ net Hm eq_refl Hid) as R.
  split; intros Tid; rewrite Tid in R; apply fetch_post_returned; exact R.
Qed.

Lemma notifications_initialized_needs_no_id_witness :
  fetch (post initialized_notification) unreachable_network =
    ([], Returned {| status := 204; headers := corsHeaders; body := None |})
  /\
  fetch (post initialized_with_id) unreachable_network =
    ([], Returned
       {| status := 404;
          headers := corsHeaders;
          body := Some (json_text
            "{'jsonrpc':'2.0','id':3,'error':{'code':-32601,'message':'Method not found: notifications/initialized'}}") |}).
Proof.
  split.
  - exact (proj1 (notifications_initialized_needs_no_id
                    initialized_notification VUndefined unreachable_network
                    eq_refl eq_refl) eq_refl).
  - exact (proj2 (notifications_initialized_needs_no_id
                    initialized_with_id (VNum 3) unreachable_network
                    eq_refl eq_refl) eq_refl).
Defined.

(* ================================================================= *)
(** ** Missing members *)

(** X10.  A [tools/call] sent with a truthy id whose [params] is missing or
    null fails in the destructuring, outside the inner [try]: the answer is
    the outermost one, HTTP 500 with the code -32603 and the id [null]; the
    id of the request is not echoed, and nothing is sent upstream. *)
Theorem tools_call_without_params_loses_id :
  forall (requestBody id params : value) (net : Network),
    Get requestBody "method" = Returned (VStr "tools/call") ->
    Get requestBody "id" = Returned id ->
    truthy id = true ->
    Get requestBody "params" = Returned params ->
    params = VUndefined \/ params = VNull ->
    fetch (post requestBody) net =
    ([], Returned
       {| status := 500;
          headers := corsHeaders;
          body := Some (json_text
            "{'jsonrpc':'2.0','error':{'code':-32603,'message':'Internal server error'},'id':null}") |}).
Proof.
  intros requestBody id params net Hm Hid Tid Hp Missing.
  destruct (Get_returned_not_nullish _ _ _ Hp) as [N ->].
  destruct (tools_call_without_params requestBody net N) as [e T].
  { destruct Missing as [-> | ->]; reflexivity. }
  apply (fetch_post_thrown requestBody net [] e).
  rewrite (route_tools_call _ _ _ Hm Hid Tid). exact T.
Qed.

Lemma tools_call_without_params_loses_id_witness :
  fetch (post call_without_params) unreachable_network =
  ([], Returned
     {| status := 500;
        headers := corsHeaders;
        body := Some (json_text
          "{'jsonrpc':'2.0','error':{'code':-32603,'message':'Internal server error'},'id':null}") |}).
Proof.
  exact (tools_call_without_params_loses_id
           call_without_params (VNum 4) VUndefined unreachable_network
           eq_refl eq_refl eq_refl eq_refl (or_introl eq_refl)).
Defined.

(** X11.  A call of the known tool with a truthy id whose [arguments] is
    missing or null fails inside the inner [try]: the answer is HTTP 500
    with the code -32603, a message that starts "Tool execution failed: ",
    and the id of the request; nothing is sent upstream. *)
Theorem tools_call_without_arguments_is_tool_failure :
  forall (requestBody id params args : value) (net : Network),
    Get requestBody "method" = Returned (VStr "tools/call") ->
    Get requestBody "id" = Returned id ->
    truthy id = true ->
    Get requestBody "params" = Returned params ->
    Get params "name" = Returned (VStr "catalysishub_graphql") ->
    Get params "arguments" = Returned args ->
    args = VUndefined \/ args = VNull ->
    exists why : string,
      fetch (post requestBody) net =
      ([], Returned
         {| status := 500;
            headers := corsHeaders;
            body := JSON_stringify
              (VObj [("jsonrpc", VStr "2.0");
                     ("id", id);
                     ("error", VObj
                        [("code", VNum (-32603));
                         ("message",
                          VStr ("Tool execution failed: " ++ why))])]) |}).
Proof.
  intros requestBody id params args net Hm Hid Tid Hp Hn Ha Missing.
  assert (C : exists why, call_arguments args = Thrown (ErrorInstance why)).
  { destruct Missing as [-> | ->]; eexists; reflexivity. }
  destruct C as [why C]. exists why.
  apply fetch_post_returned.
  rewrite (route_tools_call _ _ _ Hm Hid Tid).
  rewrite (tools_call_known _ _ _ _ net Hp Hn Ha Hid), C. reflexivity.
Qed.

Lemma tools_call_without_arguments_is_tool_failure_witness :
  exists why : string,
    fetch (post call_without_arguments) unreachable_network =
    ([], Returned
       {| status := 500;
          headers := corsHeaders;
          body := JSON_stringify
            (VObj [("jsonrpc", VStr "2.0");
                   ("id", VNum 5);
                   ("error", VObj
                      [("code", VNum (-32603));
                       ("message",
                        VStr ("Tool execution failed: " ++ why))])]) |}).
Proof.
  exact (tools_call_without_arguments_is_tool_failure
           call_without_arguments (VNum 5)
           (VObj [("name", VStr "catalysishub_graphql")]) VUndefined
           unreachable_network
           eq_refl eq_refl eq_refl eq_refl eq_refl eq_refl (or_introl eq_refl)).
Defined.

(** X12.  A missing query is not rejected by the router.  A call of the
    known tool with a truthy id and an arguments object that has no
    [query] and no truthy [variables] is forwarded: the forwarder is called
    with an undefined query, the upstream receives a POST whose body is the
    empty object, and the answer is the HTTP 200 success envelope around
    the value the forwarder returned. *)
Theorem tools_call_without_query_posts_empty_object :
  forall (requestBody id params : value) (fields : list (string * value))
         (net : Network),
    Get requestBody "method" = Returned (VStr "tools/call") ->
    Get requestBody "id" = Returned id ->
    truthy id = true ->
    Get requestBody "params" = Returned params ->
    Get params "name" = Returned (VStr "catalysishub_graphql") ->
    Get params "arguments" = Returned (VObj fields) ->
    own_property fields "query" = VUndefined ->
    truthy (own_property fields "variables") = false ->
    exists result : value,
      executeGraphQLQuery VUndefined (own_property fields "variables") net =
      ([{| out_url := "http://api.catalysis-hub.org/graphql";
           out_init :=
             {| init_method := "POST";
                init_headers := [("Content-Type", "application/json");
                                 ("User-Agent", "MCPCatalysisHubServer/0.1.0")];
                init_body := Some "{}" |} |}],
       Returned result) /\
      fetch (post requestBody) net =
      ([{| out_url := "http://api.catalysis-hub.org/graphql";
           out_init :=
             {| init_method := "POST";
                init_headers := [("Content-Type", "application/json");
                                 ("User-Agent", "MCPCatalysisHubServer/0.1.0")];
                init_body := Some "{}" |} |}],
       Returned
         {| status := 200;
            headers := corsHeaders;
            body := JSON_stringify
              (VObj [("jsonrpc", VStr "2.0");
                     ("id", id);
                     ("result", VObj
                        [("content", VArr
                           [VObj [("type", VStr "text");
                                  ("text", string_or_undefined
                                             (JSON_stringify result))]])])]) |}).
Proof.
  intros requestBody id params fields net Hm Hid Tid Hp Hn Ha Hq Hv.
  assert (C : call_arguments (VObj fields) =
              Returned (VUndefined, own_property fields "variables")).
  { unfold call_arguments.
    change (Get (VObj fields) "query")
      with (Returned (own_property fields "query")).
    rewrite Hq. reflexivity. }
  assert (B : forward_request VUndefined (own_property fields "variables") =
              {| out_url := "http://api.catalysis-hub.org/graphql";
                 out_init :=
                   {| init_method := "POST";
                      init_headers :=
                        [("Content-Type", "application/json");
                         ("User-Agent", "MCPCatalysisHubServer/0.1.0")];
                      init_body := Some "{}" |} |}).
  { unfold forward_request, request_data. rewrite Hv. reflexivity. }
  exists (settle (net (forward_request VUndefined
                         (own_property fields "variables")))).
  split.
  - rewrite executeGraphQLQuery_run, B. reflexivity.
  - apply fetch_post_returned.
    rewrite (route_tools_call _ _ _ Hm Hid Tid).
    rewrite (tools_call_known _ _ _ _ net Hp Hn Ha Hid), C, B. reflexivity.
Qed.

Lemma tools_call_without_query_posts_empty_object_witness :
  exists result : value,
    executeGraphQLQuery VUndefined (own_property [] "variables")
        unreachable_network =
    ([{| out_url := "http://api.catalysis-hub.org/graphql";
         out_init :=
           {| init_method := "POST";
              init_headers := [("Content-Type", "application/json");
                               ("User-Agent", "MCPCatalysisHubServer/0.1.0")];
              init_body := Some "{}" |} |}],
     Returned result) /\
    fetch (post call_without_query) unreachable_network =
    ([{| out_url := "http://api.catalysis-hub.org/graphql";
         out_init :=
           {| init_method := "POST";
              init_headers := [("Content-Type", "application/json");
                               ("User-Agent", "MCPCatalysisHubServer/0.1.0")];
              init_body := Some "{}" |} |}],
     Returned
       {| status := 200;
          headers := corsHeaders;
          body := JSON_stringify
            (VObj [("jsonrpc", VStr "2.0");
                   ("id", VNum 6);
                   ("result", VObj
                      [("content", VArr
                         [VObj [("type", VStr "text");
                                ("text", string_or_undefined
                                           (JSON_stringify result))]])])]) |}).
Proof.
  exact (tools_call_without_query_posts_empty_object
           call_without_query (VNum 6)
           (VObj [("name", VStr "catalysishub_graphql");
                  ("arguments", VObj [])])
           [] unreachable_network
           eq_refl eq_refl eq_refl eq_refl eq_refl eq_refl eq_refl eq_refl).
Defined.

(** X17.  A [tools/call] with a truthy id whose tool name is anything but
    the string "catalysishub_graphql" (another string, a number, or no
    name at all) is answered HTTP 404 with the code -32601, the id of the
    request and the message "Tool not found: " followed by the name as a
    template literal prints it ("undefined" for a missing name); nothing
    is sent upstream. *)
Theorem unknown_tool_any_name :
  forall (requestBody id params name : value) (nameText : string)
         (net : Network),
    Get requestBody "method" = Returned (VStr "tools/call") ->
    Get requestBody "id" = Returned id ->
    truthy id = true ->
    Get requestBody "params" = Returned params ->
    Get params "name" = Returned name ->
    is_string name "catalysishub_graphql" = false ->
    ToString name = Returned nameText ->
    fetch (post requestBody) net =
    ([], Returned
       {| status := 404;
          headers := corsHeaders;
          body := JSON_stringify
            (VObj [("jsonrpc", VStr "2.0");
                   ("id", id);
                   ("error", VObj
                      [("code", VNum (-32601));
                       ("message", VStr ("Tool not found: " ++ nameText))])])
       |}).
Proof.
  intros requestBody id params name nameText net Hm Hid Tid Hp Hn Other Text.
  destruct (Get_returned_not_nullish _ _ _ Hid) as [N ->].
  destruct (Get_returned_not_nullish _ _ _ Hp) as [_ ->].
  destruct (Get_returned_not_nullish _ _ _ Hn) as [P ->].
  apply fetch_post_returned.
  rewrite (route_tools_call _ _ _ Hm Hid Tid).
  rewrite (tools_call_other_name requestBody net N P Other), Text.
  reflexivity.
Qed.

Lemma unknown_tool_any_name_witness :
  fetch (post call_without_name) unreachable_network =
  ([], Returned
     {| status := 404;
        headers := corsHeaders;
        body := Some (json_text
          "{'jsonrpc':'2.0','id':8,'error':{'code':-32601,'message':'Tool not found: undefined'}}") |}).
Proof.
  exact (unknown_tool_any_name
           call_without_name (VNum 8) (VObj [("arguments", VObj [])])
           VUndefined "undefined" unreachable_network
           eq_refl eq_refl eq_refl eq_refl eq_refl eq_refl eq_refl).
Defined.

(** X18.  A body that parses but is no envelope.  The JSON text [null]
    fails at the first property read and gets the outermost answer, HTTP
    500 with the code -32603.  Any other parsed body without a [method]
    member (a number, a string, an array, an object lacking the key) is
    never a notification, whether it has an id or not: it gets HTTP 404
    with the code -32601 and the message "Method not found: undefined". *)
Theorem body_without_method :
  forall (requestBody : value) (net : Network),
    (requestBody = VNull ->
     fetch (post requestBody) net =
     ([], Returned
        {| status := 500;
           headers := corsHeaders;
           body := Some (json_text
             "{'jsonrpc':'2.0','error':{'code':-32603,'message':'Internal server error'},'id':null}") |}))
    /\
    (forall id : value,
        Get requestBody "method" = Returned VUndefined ->
        Get requestBody "id" = Returned id ->
        fetch (post requestBody) net =
        ([], Returned
           {| status := 404;
              headers := corsHeaders;
              body := JSON_stringify
                (VObj [("jsonrpc", VStr "2.0");
                       ("id", id);
                       ("error", VObj
                          [("code", VNum (-32601));
                           ("message", VStr "Method not found: undefined")])])
           |})).
Proof.
  intros requestBody net. split.
  - intros ->. exact (null_body_is_internal_error net).
  - intros id Hm Hid. apply fetch_post_returned.
    rewrite (route_not_initialize requestBody _ id net Hm eq_refl Hid).
    reflexivity.
Qed.

Lemma body_without_method_witness :
  fetch (post VNull) unreachable_network =
    ([], Returned
       {| status := 500;
          headers := corsHeaders;
          body := Some (json_text
            "{'jsonrpc':'2.0','error':{'code':-32603,'message':'Internal server error'},'id':null}") |})
  /\
  fetch (post envelope_without_method) unreachable_network =
    ([], Returned
       {| status := 404;
          headers := corsHeaders;
          body := Some (json_text
            "{'jsonrpc':'2.0','id':9,'error':{'code':-32601,'message':'Method not found: undefined'}}") |}).
Proof.
  split.
  - exact (proj1 (body_without_method VNull unreachable_network) eq_refl).
  - exact (proj2 (body_without_method envelope_without_method
                    unreachable_network)
             (VNum 9) eq_refl eq_refl).
Defined.

(* ================================================================= *)
(** ** More of the forwarder *)

(** X13.  The forwarder decides on the truthiness of [variables], not on
    its presence.  For every query string and every value passed as
    [variables]: a falsy one ([undefined], [null], [false], 0, the empty
    string) leaves the body at [{"query":...}], and a truthy one (the empty
    map included) is serialized under the key [variables]. *)
Theorem forwarder_sends_variables_iff_truthy :
  forall (query : string) (variables : value) (net : Network),
    exists (result : outcome value) (text : string),
      executeGraphQLQuery (VStr query) variables net =
        ([{| out_url := GRAPHQL_ROOT;
             out_init := {| init_method := "POST";
                            init_headers := forward_headers;
                            init_body := Some text |} |}],
         result) /\
      (truthy variables = false ->
       text = "{" ++ QuoteJSONString "query" ++ ":" ++ QuoteJSONString query
              ++ "}") /\
      (truthy variables = true ->
       exists m : string,
         JSON_stringify variables = Some m /\
         text = "{" ++ String.concat ","
                         [QuoteJSONString "query" ++ ":" ++ QuoteJSONString query;
                          QuoteJSONString "variables" ++ ":" ++ m]
                ++ "}").
Proof.
  intros query variables net.
  rewrite executeGraphQLQuery_run.
  unfold forward_request, request_data.
  destruct (truthy variables) eqn:T.
  - assert (S : exists m, JSON_stringify variables = Some m).
    { destruct variables; try discriminate T; eexists; reflexivity. }
    destruct S as [m S].
    eexists. eexists. split.
    + cbn [set_property]. change (String.eqb "query" "variables") with false.
      cbv iota. cbn [JSON_stringify]. rewrite S. reflexivity.
    + split; [intros F; discriminate F |].
      intros _. exists m. split; [exact S | reflexivity].
  - eexists. eexists. split; [reflexivity |].
    split; [reflexivity | intros F; discriminate F].
Qed.

Lemma forwarder_sends_variables_iff_truthy_witness :
  (exists (result : outcome value),
      executeGraphQLQuery (VStr "query{a}") VNull unreachable_network =
      ([{| out_url := GRAPHQL_ROOT;
           out_init := {| init_method := "POST";
                          init_headers := forward_headers;
                          init_body := Some (json_text "{'query':'query{a}'}") |} |}],
       result)) /\
  (exists (result : outcome value),
      executeGraphQLQuery (VStr "query{a}") (VObj []) unreachable_network =
      ([{| out_url := GRAPHQL_ROOT;
           out_init := {| init_method := "POST";
                          init_headers := forward_headers;
                          init_body :=
                            Some (json_text "{'query':'query{a}','variables':{}}") |} |}],
       result)).
Proof.
  split.
  - destruct (forwarder_sends_variables_iff_truthy
                "query{a}" VNull unreachable_network)
      as [result [text [Run [Falsy _]]]].
    exists result. rewrite Run, (Falsy eq_refl). reflexivity.
  - destruct (forwarder_sends_variables_iff_truthy
                "query{a}" (VObj []) unreachable_network)
      as [result [text [Run [_ Truthy]]]].
    destruct (Truthy eq_refl) as [m [S ->]].
    injection S as <-.
    exists result. rewrite Run. reflexivity.
Defined.

(** X19.  When the upstream answers a call of the known tool with a
    success status but a body that cannot be read as JSON, the failure of
    [response.json()] is reported like a transport failure: HTTP 200, a
    result envelope, and the text of
    [{errors:[{message: "HTTP Request Error connecting to Catalysis Hub: "
    + the parser's message}]}]. *)
Theorem unparseable_upstream_body_is_reported_as_data :
  forall (requestBody params id : value) (net : Network)
         (sent : list Outbound) (result : outcome Response)
         (out : Outbound) (response : UpstreamResponse) (cause : string),
    Get requestBody "method" = Returned (VStr "tools/call") ->
    Get requestBody "id" = Returned id ->
    Get requestBody "params" = Returned params ->
    Get params "name" = Returned (VStr "catalysishub_graphql") ->
    fetch (post requestBody) net = (sent, result) ->
    In out sent ->
    net out = Returned response ->
    up_ok response = true ->
    up_json response = Thrown (ErrorInstance cause) ->
    exists t : string,
      JSON_stringify
        (VObj [("errors", VArr [VObj [("message",
           VStr ("HTTP Request Error connecting to Catalysis Hub: " ++ cause))]])])
        = Some t /\
      result =
        Returned
          {| status := 200;
             headers := corsHeaders;
             body := JSON_stringify
               (VObj [("jsonrpc", VStr "2.0");
                      ("id", id);
                      ("result", VObj
                         [("content", VArr
                            [VObj [("type", VStr "text");
                                   ("text", VStr t)]])])]) |}.
Proof.
  intros requestBody params id net sent result out response cause
         Hm Hid Hp Hn Run Sent Net Ok Json.
  destruct (tools_call_sent _ _ _ _ _ _ _ Hm Hid Hp Hn Run Sent)
    as [_ [_ ->]].
  eexists. split; [reflexivity |].
  rewrite Net. unfold settle. rewrite Ok, Json. reflexivity.
Qed.

Lemma unparseable_upstream_body_is_reported_as_data_witness :
  exists t : string,
    JSON_stringify
      (VObj [("errors", VArr [VObj [("message",
         VStr ("HTTP Request Error connecting to Catalysis Hub: "
               ++ "Unexpected token < in JSON at position 0"))]])])
      = Some t /\
    snd (fetch (post scenario_request) answering_garbage) =
      Returned
        {| status := 200;
           headers := corsHeaders;
           body := JSON_stringify
             (VObj [("jsonrpc", VStr "2.0");
                    ("id", VNum 1);
                    ("result", VObj
                       [("content", VArr
                          [VObj [("type", VStr "text");
                                 ("text", VStr t)]])])]) |}.
Proof.
  apply (unparseable_upstream_body_is_reported_as_data
           scenario_request scenario_params (VNum 1) answering_garbage
           [forward_request (VStr "query{__schema{queryType{name}}}") VUndefined]
           _
           (forward_request (VStr "query{__schema{queryType{name}}}") VUndefined)
           {| up_status := 200;
              up_json := Thrown (ErrorInstance
                                   "Unexpected token < in JSON at position 0") |}
           "Unexpected token < in JSON at position 0").
  - reflexivity.
  - reflexivity.
  - reflexivity.
  - reflexivity.
  - vm_compute. reflexivity.
  - left. reflexivity.
  - reflexivity.
  - reflexivity.
  - reflexivity.
Defined.

(* ================================================================= *)
(** ** The network is seen only through the forwarder *)

Lemma settlement_only_ret {A} (a : A) : settlement_only (ret a).
Proof. intros net1 net2 _. reflexivity. Qed.

Lemma settlement_only_throw {A} (e : exn) : settlement_only (@throw A e).
Proof. intros net1 net2 _. reflexivity. Qed.

Lemma settlement_only_lift {A} (o : outcome A) : settlement_only (lift o).
Proof. intros net1 net2 _. reflexivity. Qed.

Lemma settlement_only_bind {A B} (m : M A) (k : A -> M B) :
  settlement_only m -> (forall a, settlement_only (k a)) ->
  settlement_only (bind m k).
Proof.
  intros Hm Hk net1 net2 S. unfold bind.
  rewrite (Hm net1 net2 S).
  destruct (m net2) as [sent [a | e]]; [| reflexivity].
  rewrite (Hk a net1 net2 S). reflexivity.
Qed.

Lemma settlement_only_try_catch {A} (m : M A) (h : exn -> M A) :
  settlement_only m -> (forall e, settlement_only (h e)) ->
  settlement_only (try_catch m h).
Proof.
  intros Hm Hh net1 net2 S. unfold try_catch.
  rewrite (Hm net1 net2 S).
  destruct (m net2) as [sent [a | e]]; [reflexivity |].
  rewrite (Hh e net1 net2 S). reflexivity.
Qed.

Lemma settlement_only_forwarder (query variables : value) :
  settlement_only (executeGraphQLQuery query variables).
Proof.
  intros net1 net2 S. rewrite !executeGraphQLQuery_run, S. reflexivity.
Qed.

Ltac settlement_step :=
  cbv beta;
  first
    [ apply settlement_only_ret
    | apply settlement_only_throw
    | apply settlement_only_lift
    | apply settlement_only_forwarder
    | apply settlement_only_bind; [| intros ?]
    | apply settlement_only_try_catch; [| intros ?]
    | match goal with
      | |- settlement_only (if ?c then _ else _) => destruct c
      end ].

Lemma settlement_only_fetch (request : Request) :
  settlement_only (fetch request).
Proof.
  unfold fetch, route, initialize, tools_call.
  repeat settlement_step.
Qed.

(** X14.  A transport failure cannot be told from an upstream answer of
    the same shape.  For every request, the handler behaves on a network
    where [fetch] rejects with an Error of message [m] exactly as on a
    network whose upstream answers 200 with the JSON body
    [{errors:[{message: "HTTP Request Error connecting to Catalysis Hub: "
    + m}]}]: the same requests are sent and the same response is returned. *)
Theorem transport_failure_looks_like_upstream_errors :
  forall (request : Request) (m : string),
    fetch request (fun _ => Thrown (ErrorInstance m)) =
    fetch request
      (answering 200
         (VObj [("errors",
                 VArr [VObj [("message",
                   VStr ("HTTP Request Error connecting to Catalysis Hub: "
                         ++ m))]])])).
Proof.
  intros request m. apply settlement_only_fetch.
  intros out. reflexivity.
Qed.

(* ================================================================= *)
(** ** The callbacks registered with the SDK server *)

(** X15.  The hand-written [tools/call] branch and the callbacks registered
    with the SDK server agree.  For a call with a truthy id and an
    arguments object whose query is a string, the callback of [getServer]
    and the callback of [MyMCP.init], applied to those arguments, send the
    same single request and return the same [{content:[{type, text}]}]
    value, and that value is the [result] member of the router's HTTP 200
    envelope. *)
Theorem tool_callback_agrees_with_router :
  forall (requestBody params id : value) (fields : list (string * value))
         (q : string) (net : Network),
    Get requestBody "method" = Returned (VStr "tools/call") ->
    Get requestBody "id" = Returned id ->
    truthy id = true ->
    Get requestBody "params" = Returned params ->
    Get params "name" = Returned (VStr "catalysishub_graphql") ->
    Get params "arguments" = Returned (VObj fields) ->
    own_property fields "query" = VStr q ->
    exists content : value,
      tool_callback (VObj fields) net =
        ([forward_request (VStr q) (own_property fields "variables")],
         Returned content) /\
      MyMCP_init.tool_callback (VObj fields) net =
        ([forward_request (VStr q) (own_property fields "variables")],
         Returned content) /\
      fetch (post requestBody) net =
        ([forward_request (VStr q) (own_property fields "variables")],
         Returned
           {| status := 200;
              headers := corsHeaders;
              body := JSON_stringify
                (VObj [("jsonrpc", VStr "2.0");
                       ("id", id);
                       ("result", content)]) |}).
Proof.
  intros requestBody params id fields q net Hm Hid Tid Hp Hn Ha Hq.
  assert (Callback :
    tool_callback (VObj fields) net =
    ([forward_request (VStr q) (own_property fields "variables")],
     Returned
       (VObj [("content", VArr
          [VObj [("type", VStr "text");
                 ("text", string_or_undefined
                    (JSON_stringify
                       (settle (net (forward_request (VStr q)
                          (own_property fields "variables"))))))]])]))).
  { unfold tool_callback.
    rewrite bind_lift. cbn [destructurable_argument].
    rewrite bind_lift.
    change (Get (VObj fields) "query")
      with (Returned (own_property fields "query")).
    rewrite Hq. cbv iota beta.
    rewrite bind_lift.
    change (Get (VObj fields) "variables")
      with (Returned (own_property fields "variables")).
    cbv iota beta.
    rewrite bind_lift. cbn [query_slice_strict].
    rewrite bind_lift. cbn [ToString].
    unfold bind. rewrite executeGraphQLQuery_run. reflexivity. }
  eexists. split; [exact Callback |]. split; [exact Callback |].
  apply fetch_post_returned.
  rewrite (route_tools_call _ _ _ Hm Hid Tid).
  rewrite (tools_call_known _ _ _ _ net Hp Hn Ha Hid).
  assert (C : call_arguments (VObj fields) =
              Returned (VStr q, own_property fields "variables")).
  { unfold call_arguments.
    change (Get (VObj fields) "query")
      with (Returned (own_property fields "query")).
    rewrite Hq. reflexivity. }
  rewrite C. reflexivity.
Qed.

Lemma tool_callback_agrees_with_router_witness :
  exists content : value,
    tool_callback (VObj [("query", VStr "query{__schema{queryType{name}}}")])
        (answering 200 scenario_upstream_body) =
      ([forward_request (VStr "query{__schema{queryType{name}}}")
          (own_property [("query", VStr "query{__schema{queryType{name}}}")]
             "variables")],
       Returned content) /\
    MyMCP_init.tool_callback
        (VObj [("query", VStr "query{__schema{queryType{name}}}")])
        (answering 200 scenario_upstream_body) =
      ([forward_request (VStr "query{__schema{queryType{name}}}")
          (own_property [("query", VStr "query{__schema{queryType{name}}}")]
             "variables")],
       Returned content) /\
    fetch (post scenario_request) (answering 200 scenario_upstream_body) =
      ([forward_request (VStr "query{__schema{queryType{name}}}")
          (own_property [("query", VStr "query{__schema{queryType{name}}}")]
             "variables")],
       Returned
         {| status := 200;
            headers := corsHeaders;
            body := JSON_stringify
              (VObj [("jsonrpc", VStr "2.0");
                     ("id", VNum 1);
                     ("result", content)]) |}).
Proof.
  exact (tool_callback_agrees_with_router
           scenario_request scenario_params (VNum 1)
           [("query", VStr "query{__schema{queryType{name}}}")]
           "query{__schema{queryType{name}}}"
           (answering 200 scenario_upstream_body)
           eq_refl eq_refl eq_refl eq_refl eq_refl eq_refl eq_refl).
Defined.

(** X16.  The registered callbacks do reject a missing query, where the
    router forwards it: applied to an argument that is [undefined] or
    [null], or whose [query] is, the callback of [getServer] and the one of
    [MyMCP.init] throw before anything is sent upstream. *)
Theorem tool_callback_rejects_missing_query :
  forall (args : value) (net : Network),
    nullish args = true \/ nullish (prop args "query") = true ->
    exists e : exn,
      tool_callback args net = ([], Thrown e) /\
      MyMCP_init.tool_callback args net = ([], Thrown e).
Proof.
  intros args net Missing.
  destruct (nullish args) eqn:N.
  - destruct args; try discriminate N; eexists; split; reflexivity.
  - destruct Missing as [F | Q]; [discriminate F |].
    assert (S : exists e, query_slice_strict (prop args "query") = Thrown e).
    { destruct (prop args "query"); try discriminate Q; eexists; reflexivity. }
    destruct S as [e S]. exists e.
    assert (D : destructurable_argument args = Returned tt).
    { destruct args; try discriminate N; reflexivity. }
    split.
    + unfold tool_callback.
      rewrite bind_lift, D, bind_lift, (Get_not_nullish _ _ N),
        bind_lift, (Get_not_nullish _ _ N), bind_lift, S.
      reflexivity.
    + unfold MyMCP_init.tool_callback.
      rewrite bind_lift, D, bind_lift, (Get_not_nullish _ _ N),
        bind_lift, (Get_not_nullish _ _ N), bind_lift, S.
      reflexivity.
Qed.

Lemma tool_callback_rejects_missing_query_witness :
  exists e : exn,
    tool_callback (VObj []) unreachable_network = ([], Thrown e) /\
    MyMCP_init.tool_callback (VObj []) unreachable_network = ([], Thrown e).
Proof.
  exact (tool_callback_rejects_missing_query
           (VObj []) unreachable_network (or_intror eq_refl)).
Defined.

(* ================================================================= *)
(** ** initialize comes before the notification test *)

(** X20.  [initialize] is answered even when it is sent as a notification:
    the branch is taken before the notification test, so an envelope with
    the method "initialize" and no id gets HTTP 200 and a result envelope,
    which then has no [id] member, where every other method without an id
    gets 204. *)
Theorem initialize_is_answered_without_id :
  forall (requestBody params requested : value) (net : Network),
    Get requestBody "method" = Returned (VStr "initialize") ->
    Get requestBody "id" = Returned VUndefined ->
    Get requestBody "params" = Returned params ->
    OptGet params "protocolVersion" = Returned requested ->
    fetch (post requestBody) net =
    ([], Returned
       {| status := 200;
          headers := corsHeaders;
          body := JSON_stringify
            (VObj [("jsonrpc", VStr "2.0");
                   ("result", VObj
                      [("protocolVersion",
                        if truthy requested then requested
                        else VStr "2024-11-05");
                       ("capabilities", VObj [("tools", VObj [])]);
                       ("serverInfo", VObj [("name", VStr "CatalysisHub");
                                            ("version", VStr "0.1.0")])])]) |}).
Proof.
  intros requestBody params requested net Hm Hid Hp Hv.
  apply fetch_post_returned.
  unfold route. rewrite bind_lift, Hm.
  change (is_string (VStr "initialize") "initialize") with true. cbv iota.
  unfold initialize.
  rewrite bind_lift, Hp, bind_lift, Hv, bind_lift, Hid.
  reflexivity.
Qed.

Lemma initialize_is_answered_without_id_witness :
  fetch (post initialize_without_id) unreachable_network =
  ([], Returned
     {| status := 200;
        headers := corsHeaders;
        body := Some (json_text
          "{'jsonrpc':'2.0','result':{'protocolVersion':'2025-03-26','capabilities':{'tools':{}},'serverInfo':{'name':'CatalysisHub','version':'0.1.0'}}}") |}).
Proof.
  exact (initialize_is_answered_without_id
           initialize_without_id
           (VObj [("protocolVersion", VStr "2025-03-26")])
           (VStr "2025-03-26") unreachable_network
           eq_refl eq_refl eq_refl eq_refl).
Defined.

(* ================================================================= *)
(** ** Number printing *)

(** Integers print as JavaScript prints the doubles they denote: exactly
    below 2^53, with the shortest digits above, and in exponent notation
    from 10^21 on; a magnitude beyond the doubles is [Infinity], which
    [JSON.stringify] writes as [null]. *)
Example Number_toString_samples :
  Number_toString (-32601) = "-32601" /\
  Number_toString 9007199254740993 = "9007199254740992" /\
  Number_toString (2 ^ 64) = "18446744073709552000" /\
  Number_toString (10 ^ 21) = "1e+21" /\
  Number_toString (2 ^ 70) = "1.1805916207174113e+21" /\
  Number_toString (- 2 ^ 1024) = "-Infinity" /\
  JSON_stringify (VArr [VNum (10 ^ 21); VNum (2 ^ 1024)])
    = Some "[1e+21,null]".
Proof. repeat split; vm_compute; reflexivity. Qed.
